(** * Guardian Agent: a shallow embedding of [agent.py]

    The script keeps a one-field JSON checkpoint ([.guardian_state.json]),
    asks an external planning service to scan a chat channel, and coerces the
    service's final output into the four-field [GuardianRunOutput] record.

    The embedding follows the script function by function.  Python values
    are an inductive type, dictionaries are finite maps, the process state
    (environment, files, standard output, calls made to the service) is
    threaded through a state-and-exception monad, and the Python exceptions
    the script can meet are constructors of [exn].  Library functions whose
    behaviour the script relies on are modelled where the proofs need their
    behaviour (the [json] module, [str.strip], [dict.setdefault]) and taken
    as parameters where they do not (number conversion, the [pydantic] field
    coercions, the planning service). *)

From Stdlib Require Import ZArith NArith List String Ascii Lia.
From Stdlib Require Import Floats.SpecFloat.
From stdpp Require Import gmap strings list fin_maps.

Set Warnings "-register-all".
Set Default Proof Using "Type".

(** * Python values *)

Module Py.

(** A Python [str] is a sequence of code points.  Lone surrogates
    (U+D800..U+DFFF) are legal elements of a [str], and the [json] module
    treats them specially, so the model keeps code points rather than bytes. *)
Abbreviation pystr := (list N).

(** ASCII literals of the script, as code-point sequences. *)
Definition py (s : string) : pystr := map N_of_ascii (list_ascii_of_string s).
Arguments py : simpl never.

Definition max_codepoint : N := 1114111.  (* 0x10FFFF *)

Definition valid_codepoint (c : N) : Prop := (c <= max_codepoint)%N.
Definition valid_str (s : pystr) : Prop := Forall valid_codepoint s.

Definition is_high_surrogate (c : N) : bool := (55296 <=? c)%N && (c <=? 56319)%N.
Definition is_low_surrogate (c : N) : bool := (56320 <=? c)%N && (c <=? 57343)%N.

(** [str.isspace] for one code point: the 29 code points CPython classifies
    as whitespace. *)
Definition isspace (c : N) : bool :=
  ((9 <=? c) && (c <=? 13) || (28 <=? c) && (c <=? 32)
   || (c =? 133) || (c =? 160) || (c =? 5760)
   || (8192 <=? c) && (c <=? 8202)
   || (c =? 8232) || (c =? 8233) || (c =? 8239) || (c =? 8287)
   || (c =? 12288))%N.

Fixpoint lstrip (s : pystr) : pystr :=
  match s with
  | c :: r => if isspace c then lstrip r else s
  | [] => []
  end.

(** [s.strip()] *)
Definition strip (s : pystr) : pystr := rev (lstrip (rev (lstrip s))).

(** ["sep".join(parts)] *)
Fixpoint join (sep : pystr) (parts : list pystr) : pystr :=
  match parts with
  | [] => []
  | [p] => p
  | p :: rest => p ++ sep ++ join sep rest
  end.

(** Values the script handles: JSON-shaped data plus opaque objects of other
    classes (a plan run's final output may be any object).  Floats are IEEE
    doubles in the inductive presentation of the standard library. *)
Inductive pyval :=
| PyNone
| PyBool (b : bool)
| PyInt (n : Z)
| PyFloat (f : spec_float)
| PyStr (s : list N)
| PyList (l : list pyval)
| PyDict (d : gmap (list N) pyval)
| PyObj (cls : string).

Definition float_is_zero (f : spec_float) : bool :=
  match f with S754_zero _ => true | _ => false end.

(** Truth value of an object, as tested by [if x], [not x] and [x or y]. *)
Definition truthy (v : pyval) : bool :=
  match v with
  | PyNone => false
  | PyBool b => b
  | PyInt n => negb (n =? 0)%Z
  | PyFloat f => negb (float_is_zero f)
  | PyStr s => match s with [] => false | _ => true end
  | PyList l => match l with [] => false | _ => true end
  | PyDict d => negb (bool_decide (d = ∅))
  | PyObj _ => true
  end.

(** [x or y] *)
Definition py_or (x y : pyval) : pyval := if truthy x then x else y.

(** [isinstance(v, dict)] *)
Definition is_dict (v : pyval) : bool :=
  match v with PyDict _ => true | _ => false end.

(** [d.get(key, default)] on a dictionary. *)
Definition dict_get (d : gmap (list N) pyval) (key : pystr) (default : pyval) : pyval :=
  match d !! key with Some v => v | None => default end.

(** [d.setdefault(key, default)]: the dictionary after the call. *)
Definition setdefault (key : pystr) (default : pyval) (d : gmap (list N) pyval)
  : gmap (list N) pyval :=
  match d !! key with Some _ => d | None => <[key := default]> d end.

(** [v == s] for a string [s]: a string equals only an equal string. *)
Definition eq_str (v : pyval) (s : pystr) : bool :=
  match v with PyStr t => bool_decide (t = s) | _ => false end.

(** States of a plan run in the planning service's client library. *)
Inductive PlanRunState :=
| NOT_STARTED | IN_PROGRESS | NEED_CLARIFICATION | READY_TO_RESUME | COMPLETE | FAILED.

#[global] Instance PlanRunState_eq_dec : EqDecision PlanRunState.
Proof. solve_decision. Defined.

(** Exceptions.  Every constructor stands for a subclass of [Exception], so
    an [except Exception] clause catches all of them. *)
Inductive exn :=
| RuntimeError (msg : string)
| PlanRunFailure (st : PlanRunState)   (* Exception(f"Plan run failed with state {run.state}.") *)
| OSError (path : pystr)
| JSONDecodeError
| ValueError
| OverflowError
| RecursionError
| TypeError
| KeyError (key : pystr)
| AttributeError (attr : string)
| ValidationError (field : string)
| ServiceError (what : string).

(** Outcome of evaluating an expression that may raise. *)
Inductive result (A : Type) :=
| Return (a : A)
| Raise (e : exn).
Arguments Return {A} a.
Arguments Raise {A} e.

Definition returns {A} (r : result A) : Prop := exists a, r = Return a.

End Py.
Export Py.

(** * The [json] module

    [json.dump] with [indent=2] (and the default [ensure_ascii=True]) for
    the one-entry checkpoint dictionary, and [json.loads] as CPython's
    scanner implements it. *)

Module Json.

(** ** Encoding *)

(** One lower-case hexadecimal digit. *)
Definition hexdigit (n : N) : N := (if n <? 10 then 48 + n else 87 + n)%N.

(** [\uXXXX] *)
Definition u_escape (n : N) : pystr :=
  [92; 117; hexdigit (n / 4096 mod 16); hexdigit (n / 256 mod 16);
   hexdigit (n / 16 mod 16); hexdigit (n mod 16)]%N.

(** The replacement of one code point in [encode_basestring_ascii]:
    the short escapes, printable ASCII unchanged, everything else as
    [\uXXXX], code points above U+FFFF as a surrogate pair. *)
Definition escape_char (c : N) : pystr :=
  (if c =? 34 then [92; 34]            (* quote *)
   else if c =? 92 then [92; 92]       (* backslash *)
   else if c =? 10 then [92; 110]      (* line feed *)
   else if c =? 13 then [92; 114]      (* carriage return *)
   else if c =? 9 then [92; 116]       (* tab *)
   else if c =? 12 then [92; 102]      (* form feed *)
   else if c =? 8 then [92; 98]        (* backspace *)
   else if (32 <=? c) && (c <=? 126) then [c]
   else if c <? 65536 then u_escape c
   else let v := c - 65536 in
        u_escape (55296 + (v / 1024) mod 1024) ++ u_escape (56320 + v mod 1024))%N.

(** [encode_basestring_ascii(s)]: the JSON string literal for [s]. *)
Definition encode_basestring_ascii (s : pystr) : pystr :=
  [34%N] ++ concat (map escape_char s) ++ [34%N].

(** [json.dumps({key: value}, indent=2)] for a string [value]. *)
Definition dumps_entry_indent2 (key value : pystr) : pystr :=
  py "{" ++ [10%N] ++ py "  " ++ encode_basestring_ascii key ++ py ": "
  ++ encode_basestring_ascii value ++ [10%N] ++ py "}".

(** ** Decoding *)

Definition is_digit (c : N) : bool := ((48 <=? c) && (c <=? 57))%N.

Definition hexval (c : N) : option N :=
  (if (48 <=? c) && (c <=? 57) then Some (c - 48)
   else if (97 <=? c) && (c <=? 102) then Some (c - 87)
   else if (65 <=? c) && (c <=? 70) then Some (c - 55)
   else None)%N.

Definition hex4val (a b c d : N) : option N :=
  match hexval a, hexval b, hexval c, hexval d with
  | Some x, Some y, Some z, Some w => Some (((x * 16 + y) * 16 + z) * 16 + w)%N
  | _, _, _, _ => None
  end.

(** The one-letter escapes of the decoder's [BACKSLASH] table. *)
Definition unescape (e : N) : option N :=
  (if e =? 34 then Some 34 else if e =? 92 then Some 92
   else if e =? 47 then Some 47 else if e =? 98 then Some 8
   else if e =? 102 then Some 12 else if e =? 110 then Some 10
   else if e =? 114 then Some 13 else if e =? 116 then Some 9
   else None)%N.

Definition join_surrogates (hi lo : N) : N :=
  (65536 + ((hi - 55296) * 1024 + (lo - 56320)))%N.

Definition prepend (c : N) (r : option (pystr * pystr)) : option (pystr * pystr) :=
  match r with Some (s, rest) => Some (c :: s, rest) | None => None end.

(** [scanstring] in strict mode, started just after the opening quote;
    yields the decoded string and the input after the closing quote, or
    [None] where the decoder raises [JSONDecodeError]. *)
Fixpoint scanstring (s : pystr) : option (pystr * pystr) :=
  match s with
  | [] => None
  | c :: r =>
    if (c =? 34)%N then Some ([], r)
    else if (c =? 92)%N then
      match r with
      | [] => None
      | e :: r2 =>
        if (e =? 117)%N then
          match r2 with
          | h1 :: h2 :: h3 :: h4 :: r6 =>
            match hex4val h1 h2 h3 h4 with
            | None => None
            | Some u =>
              if is_high_surrogate u then
                match r6 with
                | b :: x :: g1 :: g2 :: g3 :: g4 :: r12 =>
                  if ((b =? 92) && (x =? 117))%N then
                    match hex4val g1 g2 g3 g4 with
                    | None => None
                    | Some u2 =>
                      if is_low_surrogate u2
                      then prepend (join_surrogates u u2) (scanstring r12)
                      else prepend u (scanstring r6)
                    end
                  else prepend u (scanstring r6)
                | _ => prepend u (scanstring r6)
                end
              else prepend u (scanstring r6)
            end
          | _ => None
          end
        else
          match unescape e with
          | Some c' => prepend c' (scanstring r2)
          | None => None
          end
      end
    else if (c <? 32)%N then None
    else prepend c (scanstring r)
  end.

(** JSON whitespace: space, tab, line feed, carriage return. *)
Definition is_ws (c : N) : bool := ((c =? 32) || (c =? 9) || (c =? 10) || (c =? 13))%N.

Fixpoint skip_ws (s : pystr) : pystr :=
  match s with
  | c :: r => if is_ws c then skip_ws r else s
  | [] => []
  end.

(** The longest prefix of ASCII digits, and what follows it. *)
Fixpoint span_digits (s : pystr) : pystr * pystr :=
  match s with
  | c :: r => if is_digit c then let '(ds, rest) := span_digits r in (c :: ds, rest)
              else ([], s)
  | [] => ([], [])
  end.

(** The integer part of a number: an optional minus sign, then a single
    zero or a non-zero digit followed by any digits. *)
Definition match_integer (s : pystr) : option (pystr * pystr) :=
  let '(sign, s1) := match s with
                     | c :: r => if (c =? 45)%N then ([45%N], r) else ([], s)
                     | [] => ([], s)
                     end in
  match s1 with
  | c :: r =>
    if (c =? 48)%N then Some (sign ++ [c], r)
    else if is_digit c then let '(ds, rest) := span_digits r in Some (sign ++ c :: ds, rest)
    else None
  | [] => None
  end.

(** The optional fraction: a dot followed by at least one digit. *)
Definition match_frac (s : pystr) : pystr * pystr :=
  match s with
  | c :: r =>
    if (c =? 46)%N then
      match span_digits r with
      | ([], _) => ([], s)
      | (ds, rest) => (c :: ds, rest)
      end
    else ([], s)
  | [] => ([], s)
  end.

(** The optional exponent: e or E, an optional sign, at least one digit. *)
Definition match_exp (s : pystr) : pystr * pystr :=
  match s with
  | c :: r =>
    if ((c =? 101) || (c =? 69))%N then
      let '(sign, r1) := match r with
                         | d :: r' => if ((d =? 43) || (d =? 45))%N then ([d], r') else ([], r)
                         | [] => ([], r)
                         end in
      match span_digits r1 with
      | ([], _) => ([], s)
      | (ds, rest) => (c :: sign ++ ds, rest)
      end
    else ([], s)
  | [] => ([], s)
  end.

(** The value of a string of decimal digits. *)
Definition digits_value (ds : pystr) : Z :=
  fold_left (fun acc c => (acc * 10 + Z.of_N (c - 48))%Z) ds 0%Z.

(** [int(lexeme)] for a lexeme of [match_integer]; the interpreter refuses
    to convert more than 4300 digits. *)
Definition int_max_str_digits : nat := 4300.

Definition parse_int (lexeme : pystr) : result pyval :=
  let '(neg, ds) := match lexeme with
                    | c :: r => if (c =? 45)%N then (true, r) else (false, lexeme)
                    | [] => (false, lexeme)
                    end in
  if (int_max_str_digits <? length ds)%nat then Raise ValueError
  else Return (PyInt (if neg then - digits_value ds else digits_value ds)%Z).

Fixpoint starts_with (prefix s : pystr) : option pystr :=
  match prefix, s with
  | [], _ => Some s
  | p :: prefix', c :: s' => if (p =? c)%N then starts_with prefix' s' else None
  | _ :: _, [] => None
  end.

(** Outcome of scanning one value. *)
Inductive scan :=
| Scanned (v : pyval) (rest : pystr)
| Failed (e : exn)
| OutOfFuel.

Section Scanner.

(** The [parse_float] hook of the decoder (by default the builtin [float]),
    applied to the lexeme of a number that has a fraction or an exponent. *)
Variable parse_float : pystr -> spec_float.

Definition scan_number (s : pystr) : scan :=
  match match_integer s with
  | None => Failed JSONDecodeError
  | Some (int_part, r1) =>
    let '(frac, r2) := match_frac r1 in
    let '(exp, r3) := match_exp r2 in
    match frac, exp with
    | [], [] => match parse_int int_part with
                | Return v => Scanned v r3
                | Raise e => Failed e
                end
    | _, _ => Scanned (PyFloat (parse_float (int_part ++ frac ++ exp))) r3
    end
  end.

(** The literals and numbers: everything that is not a string, an object or
    an array. *)
Definition scan_atom (s : pystr) : scan :=
  match starts_with (py "null") s with Some r => Scanned PyNone r | None =>
  match starts_with (py "true") s with Some r => Scanned (PyBool true) r | None =>
  match starts_with (py "false") s with Some r => Scanned (PyBool false) r | None =>
  match starts_with (py "NaN") s with Some r => Scanned (PyFloat S754_nan) r | None =>
  match starts_with (py "Infinity") s with
  | Some r => Scanned (PyFloat (S754_infinity false)) r | None =>
  match starts_with (py "-Infinity") s with
  | Some r => Scanned (PyFloat (S754_infinity true)) r | None =>
  scan_number s
  end end end end end end.

(** [scan_once]: one JSON value at the head of [s].  [parse_object] and
    [parse_array] run the member and element loops; they start at the first
    key (element) and carry what was read so far. *)
Fixpoint scan_once (fuel : nat) (s : pystr) : scan :=
  match fuel with
  | O => OutOfFuel
  | S fuel =>
    match s with
    | [] => Failed JSONDecodeError
    | c :: r =>
      if (c =? 34)%N then
        match scanstring r with
        | Some (str, rest) => Scanned (PyStr str) rest
        | None => Failed JSONDecodeError
        end
      else if (c =? 123)%N then
        match skip_ws r with
        | [] => Failed JSONDecodeError
        | c' :: r' => if (c' =? 125)%N then Scanned (PyDict ∅) r'
                      else parse_object fuel ∅ (c' :: r')
        end
      else if (c =? 91)%N then
        match skip_ws r with
        | [] => Failed JSONDecodeError
        | c' :: r' => if (c' =? 93)%N then Scanned (PyList []) r'
                      else parse_array fuel [] (c' :: r')
        end
      else scan_atom s
    end
  end
with parse_object (fuel : nat) (acc : gmap (list N) pyval) (s : pystr) : scan :=
  match fuel with
  | O => OutOfFuel
  | S fuel =>
    match s with
    | [] => Failed JSONDecodeError
    | c :: r =>
      if (c =? 34)%N then
        match scanstring r with
        | None => Failed JSONDecodeError
        | Some (key, rest) =>
          match skip_ws rest with
          | [] => Failed JSONDecodeError
          | c2 :: r2 =>
            if (c2 =? 58)%N then
              match scan_once fuel (skip_ws r2) with
              | Scanned v rest2 =>
                match skip_ws rest2 with
                | [] => Failed JSONDecodeError
                | c3 :: r3 =>
                  if (c3 =? 125)%N then Scanned (PyDict (<[key := v]> acc)) r3
                  else if (c3 =? 44)%N then parse_object fuel (<[key := v]> acc) (skip_ws r3)
                  else Failed JSONDecodeError
                end
              | other => other
              end
            else Failed JSONDecodeError
          end
        end
      else Failed JSONDecodeError
    end
  end
with parse_array (fuel : nat) (acc : list pyval) (s : pystr) : scan :=
  match fuel with
  | O => OutOfFuel
  | S fuel =>
    match scan_once fuel s with
    | Scanned v rest =>
      match skip_ws rest with
      | [] => Failed JSONDecodeError
      | c :: r =>
        if (c =? 93)%N then Scanned (PyList (acc ++ [v])) r
        else if (c =? 44)%N then parse_array fuel (acc ++ [v]) (skip_ws r)
        else Failed JSONDecodeError
      end
    | other => other
    end
  end.

(** [json.loads(s)] for a [str]: a byte-order mark is refused, white space
    may surround the value, nothing else may follow it.  The fuel covers
    every input (see [json_loads_fuel]). *)
Definition json_loads (s : pystr) : result pyval :=
  match s with
  | 65279%N :: _ => Raise JSONDecodeError
  | _ =>
    match scan_once (2 * length s + 1) (skip_ws s) with
    | Scanned v rest =>
      match skip_ws rest with
      | [] => Return v
      | _ :: _ => Raise JSONDecodeError
      end
    | Failed e => Raise e
    | OutOfFuel => Raise RecursionError
    end
  end.

End Scanner.

End Json.
Export Json.

(** * The builtin [float]

    Decimal text to the nearest double (ties to even), on ASCII input. *)

Module Builtins.

(** The double nearest to [m * 10 ^ e10], signed by [neg]. *)
Definition float_of_decimal (neg : bool) (m e10 : Z) : spec_float :=
  match m with
  | Zpos _ =>
    if (0 <=? e10)%Z then
      binary_normalize 53 1024 (if neg then - (m * 10 ^ e10) else m * 10 ^ e10)%Z 0 false
    else
      let '(q, e', l) := SFdiv_core_binary 53 1024 m 0 (10 ^ (- e10))%Z 0 in
      binary_round_aux 53 1024 neg q e' l
  | _ => S754_zero neg
  end.

(** After a digit: further digits, each optionally preceded by a single
    underscore. *)
Fixpoint digit_run (s : pystr) : pystr * pystr :=
  match s with
  | c :: r =>
    if is_digit c then let '(ds, rest) := digit_run r in (c :: ds, rest)
    else if (c =? 95)%N then
      match r with
      | d :: r' => if is_digit d then let '(ds, rest) := digit_run r' in (d :: ds, rest)
                   else ([], s)
      | [] => ([], s)
      end
    else ([], s)
  | [] => ([], [])
  end.

Definition digitpart (s : pystr) : option (pystr * pystr) :=
  match s with
  | c :: r => if is_digit c then let '(ds, rest) := digit_run r in Some (c :: ds, rest)
              else None
  | [] => None
  end.

Definition take_sign (s : pystr) : bool * pystr :=
  match s with
  | c :: r => if (c =? 45)%N then (true, r) else if (c =? 43)%N then (false, r) else (false, s)
  | [] => (false, s)
  end.

Definition lower (c : N) : N := (if (65 <=? c) && (c <=? 90) then c + 32 else c)%N.

(** Integer digits, fraction digits and what follows: digits with an
    optional dot and fraction, or a dot and a fraction. *)
Definition float_number (s : pystr) : option (pystr * pystr * pystr) :=
  match digitpart s with
  | Some (ip, r) =>
    match r with
    | c :: r' =>
      if (c =? 46)%N then
        match digitpart r' with
        | Some (fp, r'') => Some (ip, fp, r'')
        | None => Some (ip, [], r')
        end
      else Some (ip, [], r)
    | [] => Some (ip, [], r)
    end
  | None =>
    match s with
    | c :: r' =>
      if (c =? 46)%N then
        match digitpart r' with
        | Some (fp, r'') => Some ([], fp, r'')
        | None => None
        end
      else None
    | [] => None
    end
  end.

(** The exponent, which must end the text; no exponent is exponent zero. *)
Definition float_exponent (s : pystr) : option Z :=
  match s with
  | [] => Some 0%Z
  | c :: r =>
    if ((c =? 101) || (c =? 69))%N then
      let '(neg, r1) := take_sign r in
      match digitpart r1 with
      | Some (ds, []) => Some (if neg then - digits_value ds else digits_value ds)%Z
      | _ => None
      end
    else None
  end.

(** [float(s)] for a string: surrounding white space is dropped; [inf],
    [infinity] and [nan] are read in any case; anything else that is not a
    decimal number raises [ValueError]. *)
Definition float_of_str (s : pystr) : result spec_float :=
  let '(neg, body) := take_sign (strip s) in
  let word := map lower body in
  if bool_decide (word = py "inf") || bool_decide (word = py "infinity")
  then Return (S754_infinity neg)
  else if bool_decide (word = py "nan") then Return S754_nan
  else
    match float_number body with
    | Some (ip, fp, rest) =>
      match float_exponent rest with
      | Some e =>
        Return (float_of_decimal neg (digits_value (ip ++ fp)) (e - Z.of_nat (length fp)))
      | None => Raise ValueError
      end
    | None => Raise ValueError
    end.

(** [float(v)] for any value. *)
Definition builtin_float (v : pyval) : result spec_float :=
  match v with
  | PyStr s => float_of_str s
  | PyFloat f => Return f
  | PyBool b => Return (binary_normalize 53 1024 (if b then 1 else 0)%Z 0 false)
  | PyInt n =>
    match binary_normalize 53 1024 n 0 false with
    | S754_infinity _ => Raise OverflowError
    | f => Return f
    end
  | _ => Raise TypeError
  end.

(** The decoder's default [parse_float]: [float] on the number's text. *)
Definition default_parse_float (lexeme : pystr) : spec_float :=
  match float_of_str lexeme with
  | Return f => f
  | Raise _ => S754_nan
  end.

(** [str(v)] for strings, [None] and booleans.  The text of other values
    (numbers, containers, objects) is not modelled and is left empty; the
    statements below hold for any rendering that maps a string to itself. *)
Definition text_of (v : pyval) : pystr :=
  match v with
  | PyStr s => s
  | PyNone => py "None"
  | PyBool true => py "True"
  | PyBool false => py "False"
  | _ => []
  end.

(** pydantic's field coercions in strict mode: exactly an [int] for a field
    declared [int], exactly a [str] for a field declared [str].  The default
    (lax) mode accepts these and more; both modes refuse [None]. *)
Definition strict_int (v : pyval) : option Z :=
  match v with PyInt n => Some n | _ => None end.

Definition strict_str (v : pyval) : option pystr :=
  match v with PyStr s => Some s | _ => None end.

End Builtins.
Export Builtins.

(** * The planning service's client objects *)

Module Portia.

(** The plan prompt is a fixed instruction text with two holes; only the
    two interpolated values vary from run to run. *)
Record Prompt := { prompt_parent_email : pystr; prompt_channel_id : pystr }.

Record Plan := { plan_id : pystr }.

(** [run.outputs]: the final output ([None] when the run produced none) and
    whatever other attributes the object carries, as [getattr] finds them. *)
Record PlanRunOutputs := {
  final_output : option pyval;
  attributes : gmap (list N) pyval
}.

Record PlanRun := { state : PlanRunState; outputs : PlanRunOutputs }.

(** The service as the script sees it: what each call answers.  A call may
    raise instead of returning. *)
Record Service := {
  setup : result unit;   (* Config.from_default, DefaultToolRegistry, Portia *)
  plan : Prompt -> result Plan;
  run_plan : Plan -> result PlanRun;
  wait_for_ready : PlanRun -> result PlanRun
}.

(** Calls into the client library, in the order they are made. *)
Inductive call :=
| CallSetup
| CallPlan (p : Prompt)
| CallRunPlan (pl : Plan)
| CallWaitForReady (r : PlanRun).

End Portia.
Export Portia.

(** * The process: environment, files, output *)

Module Os.

(** How writing a file can fail: [open] raises and the file is untouched,
    or the write raises after [open] truncated the file and only the first
    [written] characters reached it. *)
Inductive write_failure :=
| OpenFails
| WriteFails (written : nat).

Record filesystem := {
  contents : gmap (list N) (list N);          (* path to text *)
  read_denied : gset (list N);                (* opening for reading raises *)
  write_fault : gmap (list N) write_failure   (* opening for writing misbehaves *)
}.

(** A value interpolated into a printed line. *)
Inductive arg :=
| AStr (s : pystr)
| AVal (v : pyval)
| AOpt (o : option pystr)
| AInt (n : Z)
| ALen (n : nat)
| AExn (e : exn)
| APlan (pl : Plan)
| AState (st : PlanRunState).

(** One call of [print]: the text of the f-string and the values of its
    replacement fields, in order. *)
Record printed := Printed { template : string; args : list arg }.

Record world := {
  environ : gmap (list N) (list N);   (* os.environ *)
  dotenv : gmap (list N) (list N);    (* what load_dotenv() finds in the .env file *)
  fs : filesystem;
  stdout : list printed;
  service_log : list call
}.

(** Computations of the script: they read and change the world and either
    return a value or raise. *)
Definition M (A : Type) : Type := world -> result A * world.

Definition ret {A} (a : A) : M A := fun w => (Return a, w).

Definition raise {A} (e : exn) : M A := fun w => (Raise e, w).

Definition bind {A B} (m : M A) (k : A -> M B) : M B :=
  fun w => match m w with
           | (Return a, w') => k a w'
           | (Raise e, w') => (Raise e, w')
           end.

(** [try: body / except Exception as e: handler(e)] *)
Definition try_except {A} (body : M A) (handler : exn -> M A) : M A :=
  fun w => match body w with
           | (Return a, w') => (Return a, w')
           | (Raise e, w') => handler e w'
           end.

(** The value of an expression that may raise, inside a computation. *)
Definition lift {A} (r : result A) : M A := fun w => (r, w).

Definition set_fs (f : filesystem) (w : world) : world :=
  {| environ := environ w; dotenv := dotenv w; fs := f;
     stdout := stdout w; service_log := service_log w |}.

Definition set_environ (env : gmap (list N) (list N)) (w : world) : world :=
  {| environ := env; dotenv := dotenv w; fs := fs w;
     stdout := stdout w; service_log := service_log w |}.

Definition add_stdout (line : printed) (w : world) : world :=
  {| environ := environ w; dotenv := dotenv w; fs := fs w;
     stdout := stdout w ++ [line]; service_log := service_log w |}.

Definition add_call (c : call) (w : world) : world :=
  {| environ := environ w; dotenv := dotenv w; fs := fs w;
     stdout := stdout w; service_log := service_log w ++ [c] |}.

(** [print(...)].  Standard output is taken to accept every line.  With
    the interpreter's default UTF-8 stream that is so for every text without
    a surrogate code point, and [print] raises [UnicodeEncodeError] on a text
    that holds one; a property whose truth depends on such a line being
    written is stated for data without surrogates (see [encodable]). *)
Definition print (text : string) (xs : list arg) : M unit :=
  fun w => (Return tt, add_stdout (Printed text xs) w).

(** A call into the client library: recorded, then answered. *)
Definition service_call {A} (c : call) (answer : result A) : M A :=
  fun w => (answer, add_call c w).

(** [load_dotenv()]: variables of the .env file enter the environment;
    a variable that is already set keeps its value. *)
Definition load_dotenv : M unit :=
  fun w => (Return tt, set_environ (environ w ∪ dotenv w) w).

(** [os.getenv(name)] *)
Definition getenv (name : pystr) : M (option pystr) :=
  fun w => (Return (environ w !! name), w).

(** [not v] for the result of [os.getenv]: unset or empty. *)
Definition unset_or_empty (v : option pystr) : bool :=
  match v with None => true | Some [] => true | Some (_ :: _) => false end.

(** [os.path.exists(path)] *)
Definition path_exists (path : pystr) : M bool :=
  fun w => (Return (bool_decide (is_Some (contents (fs w) !! path))), w).

(** [with open(path, 'r') as f: f.read()] *)
Definition read_text (path : pystr) : M pystr :=
  fun w => if bool_decide (path ∈ read_denied (fs w)) then (Raise (OSError path), w)
           else match contents (fs w) !! path with
                | Some text => (Return text, w)
                | None => (Raise (OSError path), w)
                end.

Definition set_contents (path text : pystr) (f : filesystem) : filesystem :=
  {| contents := <[path := text]> (contents f);
     read_denied := read_denied f; write_fault := write_fault f |}.

(** [with open(path, 'w') as f: f.write(text)] *)
Definition write_text (path text : pystr) : M unit :=
  fun w => match write_fault (fs w) !! path with
           | None => (Return tt, set_fs (set_contents path text (fs w)) w)
           | Some OpenFails => (Raise (OSError path), w)
           | Some (WriteFails n) =>
             (Raise (OSError path), set_fs (set_contents path (take n text) (fs w)) w)
           end.

End Os.
Export Os.

(** The monad notations [x ← m; k] and [m ;; k] are those of stdpp. *)
#[global] Instance M_ret : MRet M := @ret.
#[global] Instance M_bind : MBind M := fun A B k m => bind m k.

(** * The checkpoint file *)

Module StateStore.

Definition state_file : pystr := py ".guardian_state.json".

Section Load.

Variable parse_float : pystr -> spec_float.

(** [state_data.get("last_ts", "")]: only a dictionary has [get]. *)
Definition get_last_ts (state_data : pyval) : result pyval :=
  match state_data with
  | PyDict d => Return (dict_get d (py "last_ts") (PyStr []))
  | _ => Raise (AttributeError "get")
  end.

(** [get_guardian_state()] *)
Definition get_guardian_state : M pyval :=
  try_except
    (present ← path_exists state_file;
     if negb present then
       print "📄 State file {state_file} doesn't exist - will process last 50 messages"
             [AStr state_file];;
       mret (PyStr [])
     else
       text ← read_text state_file;
       let content := strip text in
       if negb (truthy (PyStr content)) then
         print "📄 State file {state_file} is empty - will process last 50 messages"
               [AStr state_file];;
         mret (PyStr [])
       else
         state_data ← lift (json_loads parse_float content);
         last_ts ← lift (get_last_ts state_data);
         (if truthy last_ts
          then print "📄 Found last processed timestamp: {last_ts}" [AVal last_ts]
          else print "📄 No last_ts in state file - will process last 50 messages" []);;
         mret last_ts)
    (fun e =>
       print "📄 Error reading state file {state_file}: {e} - will process last 50 messages"
             [AStr state_file; AExn e];;
       mret (PyStr [])).

End Load.

(** [save_guardian_state(last_ts)] *)
Definition save_guardian_state (last_ts : pystr) : M unit :=
  try_except
    (write_text state_file (dumps_entry_indent2 (py "last_ts") last_ts);;
     print "💾 Saved state: last_ts = {last_ts}" [AStr last_ts])
    (fun e => print "❌ Error saving state file: {e}" [AExn e]).

End StateStore.
Export StateStore.

(** * Filtering messages *)

Module Filter.

Section FilterNewMessages.

(** The builtin [float] and the rendering of a value in an f-string
    replacement field (its [str]). *)
Variable py_float : pyval -> result spec_float.
Variable py_str : pyval -> pystr.

(** [float(m["ts"]) > last_ts_float] for one message. *)
Definition is_newer (last_ts_float : spec_float) (m : gmap (list N) pyval) : result bool :=
  match m !! py "ts" with
  | None => Raise (KeyError (py "ts"))
  | Some v =>
    match py_float v with
    | Return f => Return (SFltb last_ts_float f)
    | Raise e => Raise e
    end
  end.

(** [[m for m in slack_messages if float(m["ts"]) > last_ts_float]] *)
Fixpoint select_newer (last_ts_float : spec_float) (slack_messages : list (gmap (list N) pyval))
  : result (list (gmap (list N) pyval)) :=
  match slack_messages with
  | [] => Return []
  | m :: rest =>
    match is_newer last_ts_float m with
    | Raise e => Raise e
    | Return keep =>
      match select_newer last_ts_float rest with
      | Raise e => Raise e
      | Return kept => Return (if keep then m :: kept else kept)
      end
    end
  end.

(** [f'[{m.get("user","?")}] {m.get("text","")}'] *)
Definition render (m : gmap (list N) pyval) : pystr :=
  py "[" ++ py_str (dict_get m (py "user") (PyStr (py "?"))) ++ py "] "
  ++ py_str (dict_get m (py "text") (PyStr [])).

(** [filter_new_messages(slack_messages, state_last_ts)] *)
Definition filter_new_messages (slack_messages : list (gmap (list N) pyval))
    (state_last_ts : pystr) : M pyval :=
  new_messages ←
    (if negb (truthy (PyStr state_last_ts)) then
       print "🔍 No previous timestamp - processing all {len(slack_messages)} messages"
             [ALen (length slack_messages)];;
       mret slack_messages
     else
       last_ts_float ← lift (py_float (PyStr state_last_ts));
       new_messages ← lift (select_newer last_ts_float slack_messages);
       print "🔍 Found {len(new_messages)} new messages since {state_last_ts}"
             [ALen (length new_messages); AStr state_last_ts];;
       mret new_messages);
  let texts := map render new_messages in
  mret (PyDict (<[py "list" := PyList (map PyStr texts)]>
               (<[py "str" := PyStr (join [10%N] texts)]>
               (<[py "new_messages" := PyList (map PyDict new_messages)]> ∅)))).

End FilterNewMessages.

End Filter.
Export Filter.

(** * Running the agent *)

Module Agent.

(** The structured output of a run ([GuardianRunOutput]). *)
Record GuardianRunOutput := {
  scanned_count : Z;
  alerted_count : Z;
  last_ts : option pystr;
  safety_status : pystr
}.

(** The two configuration errors. *)
Definition api_key_error : exn :=
  RuntimeError "❌ PORTIA_API_KEY is not set. Please add it to your .env file or environment variables.".

Definition env_error : exn :=
  RuntimeError "❌ PARENT_EMAIL and SLACK_CHANNEL_ID must be set in the environment.".

Definition rule50 : string := "==================================================".
Definition rule60 : string := "============================================================".

(** [getattr(obj, name, None)] on the outputs of a run. *)
Definition getattr_or_none (outs : PlanRunOutputs) (name : pystr) : pyval :=
  match attributes outs !! name with Some v => v | None => PyNone end.

(** The dictionary built when the final output is not one: best-effort
    counts, no timestamp, status failed. *)
Definition fallback_output (outs : PlanRunOutputs) : gmap (list N) pyval :=
  let scanned := py_or (getattr_or_none outs (py "scanned_count")) (PyInt 0) in
  let alerted := py_or (getattr_or_none outs (py "alerted_count")) (PyInt 0) in
  <[py "scanned_count" := scanned]>
  (<[py "alerted_count" := alerted]>
  (<[py "last_ts" := PyNone]>
  (<[py "safety_status" := PyStr (py "failed")]> ∅))).

(** The four [setdefault] calls. *)
Definition fill_defaults (raw_output : gmap (list N) pyval) : gmap (list N) pyval :=
  setdefault (py "safety_status") (PyStr (py "failed"))
  (setdefault (py "last_ts") PyNone
  (setdefault (py "alerted_count") (PyInt 0)
  (setdefault (py "scanned_count") (PyInt 0) raw_output))).

Definition force_completed (r : GuardianRunOutput) : GuardianRunOutput :=
  {| scanned_count := scanned_count r; alerted_count := alerted_count r;
     last_ts := last_ts r; safety_status := py "completed" |}.

Section Validation.

(** The coercions pydantic applies to the value of a field declared [int]
    and of a field declared [str]; [None] where validation fails. *)
Variable int_field : pyval -> option Z.
Variable str_field : pyval -> option pystr.

(** [GuardianRunOutput.model_validate(d)] for a dictionary: the two counts
    are required, [last_ts] is optional text defaulting to [None],
    [safety_status] defaults to "completed"; other keys are ignored. *)
Definition model_validate (d : gmap (list N) pyval) : result GuardianRunOutput :=
  match d !! py "scanned_count" ≫= int_field with
  | None => Raise (ValidationError "scanned_count")
  | Some scanned =>
    match d !! py "alerted_count" ≫= int_field with
    | None => Raise (ValidationError "alerted_count")
    | Some alerted =>
      match (match d !! py "last_ts" with
             | None | Some PyNone => Some None
             | Some v => Some <$> str_field v
             end) with
      | None => Raise (ValidationError "last_ts")
      | Some ts =>
        match (match d !! py "safety_status" with
               | None => Some (py "completed")
               | Some v => str_field v
               end) with
        | None => Raise (ValidationError "safety_status")
        | Some status =>
          Return {| scanned_count := scanned; alerted_count := alerted;
                    last_ts := ts; safety_status := status |}
        end
      end
    end
  end.

(** The dictionary handed to validation: the final output itself when it is
    a dictionary, the fallback otherwise, with missing keys filled in. *)
Definition coerce_output (outs : PlanRunOutputs) (raw_output : pyval) : gmap (list N) pyval :=
  fill_defaults (match raw_output with
                 | PyDict d => d
                 | _ => fallback_output outs
                 end).

(** The result validator: the value [run_agent] returns (or the exception
    it raises) for a raw final output. *)
Definition validate_output (outs : PlanRunOutputs) (raw_output : pyval)
  : result GuardianRunOutput :=
  match model_validate (coerce_output outs raw_output) with
  | Return r => Return (force_completed r)
  | Raise e => Raise e
  end.

Variable parse_float : pystr -> spec_float.
Variable svc : Service.

(** The run after the optional wait for a clarification (OAuth). *)
Definition await_ready (run : PlanRun) : M PlanRun :=
  if bool_decide (state run = NEED_CLARIFICATION) then
    print "\n🔐 OAuth authentication required..." [];;
    run' ← service_call (CallWaitForReady run) (wait_for_ready svc run);
    print "✅ Authentication completed." [];;
    mret run'
  else mret run.

(** The check on the terminal state. *)
Definition require_complete (run : PlanRun) : M unit :=
  if bool_decide (state run ≠ COMPLETE) then raise (PlanRunFailure (state run))
  else mret tt.

(** The validation shim, with what it prints. *)
Definition validation_shim (run : PlanRun) : M GuardianRunOutput :=
  raw_output ← lift (match final_output (outputs run) with
                     | Some v => Return v
                     | None => Raise (AttributeError "value")
                     end);
  print "\n🔍 Raw final output from plan: {raw_output!r}" [AVal raw_output];;
  (if negb (is_dict raw_output)
   then print "⚠️ Unexpected output (not dict). Attempting fallback with best-effort counts." []
   else mret tt);;
  lift (validate_output (outputs run) raw_output).

(** [run_agent()] *)
Definition run_agent : M GuardianRunOutput :=
  print "🛡️  GUARDIAN AGENT - INITIALIZING" [];;
  print rule50 [];;
  parent_email ← getenv (py "PARENT_EMAIL");
  channel_id ← getenv (py "SLACK_CHANNEL_ID");
  if unset_or_empty parent_email || unset_or_empty channel_id then
    raise env_error
  else
    let parent_email := default [] parent_email in
    let channel_id := default [] channel_id in
    print "📧 Parent Email: {parent_email}" [AStr parent_email];;
    print "📱 Slack Channel: {channel_id}" [AStr channel_id];;
    current_state ← get_guardian_state parse_float;
    (if truthy current_state
     then print "📊 Will process messages newer than: {current_state}" [AVal current_state]
     else print "📊 Will process last 50 messages (no previous state or invalid state file)" []);;
    print rule50 [];;
    service_call CallSetup (setup svc);;
    let prompt := {| prompt_parent_email := parent_email; prompt_channel_id := channel_id |} in
    the_plan ← service_call (CallPlan prompt) (plan svc prompt);
    print "\nHere are the steps in the generated plan:" [];;
    print "Plan ID: {plan}" [APlan the_plan];;
    print "Plan details: {plan.__dict__}" [APlan the_plan];;
    print "✅ Auto-accepting the generated plan." [];;
    run ← service_call (CallRunPlan the_plan) (run_plan svc the_plan);
    run ← await_ready run;
    require_complete run;;
    validation_shim run.

(** Reading the checkpoint back after saving it: the inner [try] of the
    entry point. *)
Definition verify_saved_state (ts : pystr) : M unit :=
  try_except
    (text ← read_text state_file;
     saved ← lift (json_loads parse_float text);
     stored ← lift (match saved with
                    | PyDict d => Return (dict_get d (py "last_ts") PyNone)
                    | _ => Raise (AttributeError "get")
                    end);
     if eq_str stored ts
     then print "✅ State verified: {out.last_ts}" [AStr ts]
     else print "⚠️ State verification mismatch" [])
    (fun e => print "⚠️ Could not verify state save: {e}" [AExn e]).

(** The body of the [try] in the entry point after [run_agent] returned. *)
Definition report_and_save (out : GuardianRunOutput) : M unit :=
  print ("\n" ++ rule60) [];;
  print "🛡️  GUARDIAN AGENT - EXECUTION COMPLETE" [];;
  print rule60 [];;
  print "📊 Messages Scanned: {out.scanned_count}" [AInt (scanned_count out)];;
  print "🚨 Alerts Sent: {out.alerted_count}" [AInt (alerted_count out)];;
  print "⏰ Last Processed: {out.last_ts or 'None'}" [AOpt (last_ts out)];;
  print "✅ Status: {out.safety_status}" [AStr (safety_status out)];;
  print rule60 [];;
  (if (0 <? alerted_count out)%Z then
     print "⚠️  PARENT HAS BEEN NOTIFIED" [];;
     print "📧 Check email for details" []
   else
     print "✅ NO CONCERNING ACTIVITY DETECTED" [];;
     print "🛡️  Child's messages appear safe" []);;
  match last_ts out with
  | Some (c :: s) =>
    let ts := c :: s in
    print "💾 Saving final state: {out.last_ts}" [AStr ts];;
    save_guardian_state ts;;
    verify_saved_state ts
  | Some [] | None => print "⚠️ No last_ts - state not updated" []
  end.

(** The entry point: the block under [if __name__ == "__main__"]. *)
Definition main : M unit :=
  try_except
    (print "🚀 Starting Guardian Agent execution..." [];;
     out ← run_agent;
     report_and_save out)
    (fun e =>
       (* [traceback.print_exc()] follows: it writes to standard error,
          which the world does not record *)
       print "\n❌ Guardian Agent failed: {e}" [AExn e]).

(** What importing the module executes before any function is called. *)
Definition module_top_level : M unit :=
  load_dotenv;;
  key ← getenv (py "PORTIA_API_KEY");
  if unset_or_empty key then
    raise api_key_error
  else mret tt.

(** Running the file as a script. *)
Definition script : M unit := module_top_level;; main.

End Validation.

End Agent.
Export Agent.

(** * Notions used in the statements *)

Module Spec.

(** No high surrogate is immediately followed by a low surrogate. *)
Fixpoint no_surrogate_pair (s : pystr) : bool :=
  match s with
  | a :: r =>
    negb (is_high_surrogate a
          && match r with b :: _ => is_low_surrogate b | [] => false end)
    && no_surrogate_pair r
  | [] => true
  end.

(** The text starts with the [\uXXXX] escape of a low surrogate. *)
Definition starts_low_escape (k : pystr) : bool :=
  match k with
  | b :: x :: g1 :: g2 :: g3 :: g4 :: _ =>
    ((b =? 92) && (x =? 117))%N
    && match hex4val g1 g2 g3 g4 with
       | Some u2 => is_low_surrogate u2
       | None => false
       end
  | _ => false
  end.

(** A scan that has not run out of fuel and, when it succeeds, has consumed
    at least one character of [s]. *)
Definition consumes (r : scan) (s : pystr) : Prop :=
  r <> OutOfFuel /\ forall v rest, r = Scanned v rest -> length rest < length s.

(** The text holds no surrogate code point (U+D800 to U+DFFF): UTF-8
    encodes it, so [print] writes it to the default standard output. *)
Definition is_surrogate (c : N) : bool := is_high_surrogate c || is_low_surrogate c.

Definition encodable (s : pystr) : bool := forallb (fun c => negb (is_surrogate c)) s.

(** The integer has at most [int_max_str_digits] decimal digits, so that
    formatting it in an f-string does not raise. *)
Definition int_printable (n : Z) : bool :=
  (Z.abs n <? 10 ^ Z.of_nat int_max_str_digits)%Z.

(** A computation leaves one component of the world unchanged. *)
Definition preserves {A B} (proj : world -> B) (m : M A) : Prop :=
  forall w, proj (snd (m w)) = proj w.

(** A computation returns (does not raise) in every world. *)
Definition total {A} (m : M A) : Prop :=
  forall w, returns (fst (m w)).

(** The default [fill_defaults] gives a key, if it is one of the four. *)
Definition default_of (key : pystr) : option pyval :=
  if bool_decide (key = py "scanned_count") then Some (PyInt 0)
  else if bool_decide (key = py "alerted_count") then Some (PyInt 0)
  else if bool_decide (key = py "last_ts") then Some PyNone
  else if bool_decide (key = py "safety_status") then Some (PyStr (py "failed"))
  else None.

(** The values a dictionary carries under the four keys pass the schema's
    field validation. *)
Definition acceptable (int_field : pyval -> option Z) (str_field : pyval -> option pystr)
    (d : gmap (list N) pyval) : Prop :=
  (forall v, d !! py "scanned_count" = Some v -> is_Some (int_field v))
  /\ (forall v, d !! py "alerted_count" = Some v -> is_Some (int_field v))
  /\ (forall v, d !! py "last_ts" = Some v -> v = PyNone \/ is_Some (str_field v))
  /\ (forall v, d !! py "safety_status" = Some v -> is_Some (str_field v)).

(** The timestamp of a message, as [float] reads it, is greater than [f0]. *)
Definition newer_than (py_float : pyval -> result spec_float) (f0 : spec_float)
    (m : gmap (list N) pyval) : bool :=
  match m !! py "ts" with
  | Some v => match py_float v with Return f => SFltb f0 f | Raise _ => false end
  | None => false
  end.

(** Every message has a [ts] that [float] reads. *)
Definition timestamps_parse (py_float : pyval -> result spec_float)
    (msgs : list (gmap (list N) pyval)) : Prop :=
  Forall (fun m => exists v f, m !! py "ts" = Some v /\ py_float v = Return f) msgs.

(** The environment the script consults once [load_dotenv] has run. *)
Definition effective_environ (w : world) : gmap (list N) (list N) :=
  environ w ∪ dotenv w.

(** The run whose state [run_agent] checks: the answer of [run_plan], or of
    [wait_for_ready] when that answer asks for a clarification. *)
Definition terminal_run (svc : Service) (p : Prompt) : result PlanRun :=
  match setup svc with
  | Raise e => Raise e
  | Return _ =>
    match plan svc p with
    | Raise e => Raise e
    | Return pl =>
      match run_plan svc pl with
      | Raise e => Raise e
      | Return run =>
        if bool_decide (state run = NEED_CLARIFICATION) then wait_for_ready svc run
        else Return run
      end
    end
  end.

(** What [run_agent] returns or raises, read off the environment and the
    service's answers. *)
Definition agent_outcome (int_field : pyval -> option Z) (str_field : pyval -> option pystr)
    (svc : Service) (env : gmap (list N) (list N)) : result GuardianRunOutput :=
  let parent_email := env !! py "PARENT_EMAIL" in
  let channel_id := env !! py "SLACK_CHANNEL_ID" in
  if unset_or_empty parent_email || unset_or_empty channel_id then Raise env_error
  else
    match terminal_run svc {| prompt_parent_email := default [] parent_email;
                              prompt_channel_id := default [] channel_id |} with
    | Raise e => Raise e
    | Return run =>
      if bool_decide (state run ≠ COMPLETE) then Raise (PlanRunFailure (state run))
      else
        match final_output (outputs run) with
        | Some raw => validate_output int_field str_field (outputs run) raw
        | None => Raise (AttributeError "value")
        end
    end.

(** A rendered line as the specification words it: the user in brackets,
    a question mark when the message has none, then the text, empty when
    the message has none. *)
Definition rendered_line (py_str : pyval -> pystr) (m : gmap (list N) pyval) : pystr :=
  py "[" ++ match m !! py "user" with Some u => py_str u | None => py "?" end
  ++ py "] " ++ match m !! py "text" with Some t => py_str t | None => [] end.

End Spec.
Export Spec.

(** * Concrete worlds and inputs *)

Module Examples.

Definition no_files : filesystem :=
  {| contents := ∅; read_denied := ∅; write_fault := ∅ |}.

(** A process with nothing set: no variables, no files, no output yet. *)
Definition empty_world : world :=
  {| environ := ∅; dotenv := ∅; fs := no_files; stdout := []; service_log := [] |}.

(** A process whose only file is the checkpoint, holding [text]. *)
Definition world_with_state (text : pystr) : world :=
  set_fs (set_contents state_file text no_files) empty_world.

(** A checkpoint written by [save_guardian_state] with a form feed put in
    front of it: [str.strip] removes the form feed, JSON does not allow it. *)
Definition formfeed_checkpoint : pystr :=
  12%N :: dumps_entry_indent2 (py "last_ts") (py "1712345678.000200").

(** The two-element string made of the surrogates U+D83D and U+DE00. *)
Definition surrogate_pair_ts : pystr := [55357%N; 56832%N].

(** The outputs of a run that carry nothing. *)
Definition no_outputs : PlanRunOutputs :=
  {| final_output := None; attributes := ∅ |}.

(** A final output that is a dictionary whose [scanned_count] is [None]. *)
Definition null_count_output : pyval :=
  PyDict {[ py "scanned_count" := PyNone ]}.

(** A final output that is a dictionary with two of the four keys. *)
Definition partial_output : pyval :=
  PyDict (<[py "scanned_count" := PyInt 12]> {[ py "last_ts" := PyStr (py "1712345678.000200") ]}).

(** Three chat messages: two with a timestamp after 1712345678.0002, one
    before; the last has neither user nor text. *)
Definition message (ts : string) (user text : string) : gmap (list N) pyval :=
  <[py "ts" := PyStr (py ts)]>
  (<[py "user" := PyStr (py user)]> {[ py "text" := PyStr (py text) ]}).

Definition sample_messages : list (gmap (list N) pyval) :=
  [ message "1712345679.000100" "U1" "hello";
    message "1712345600.000000" "U2" "earlier";
    {[ py "ts" := PyStr (py "1712345680.5") ]} ].

(** A service whose run completes with a dictionary as final output. *)
Definition completing_service : Service :=
  {| setup := Return tt;
     plan := fun _ => Return {| plan_id := py "plan-1" |};
     run_plan := fun _ =>
       Return {| state := COMPLETE;
                 outputs := {| final_output := Some partial_output; attributes := ∅ |} |};
     wait_for_ready := fun r => Return r |}.

(** A service whose run asks for a clarification and fails after it. *)
Definition failing_service : Service :=
  {| setup := Return tt;
     plan := fun _ => Return {| plan_id := py "plan-1" |};
     run_plan := fun _ => Return {| state := NEED_CLARIFICATION; outputs := no_outputs |};
     wait_for_ready := fun r => Return {| state := FAILED; outputs := outputs r |} |}.

(** A process with the two addresses set. *)
Definition configured_world : world :=
  {| environ := <[py "PARENT_EMAIL" := py "parent@example.org"]>
                (<[py "SLACK_CHANNEL_ID" := py "C0123456789"]>
                {[ py "PORTIA_API_KEY" := py "key" ]});
     dotenv := ∅; fs := no_files; stdout := []; service_log := [] |}.

(** A process whose checkpoint cannot be opened for writing. *)
Definition read_only_world : world :=
  set_fs {| contents := ∅; read_denied := ∅;
            write_fault := {[ state_file := OpenFails ]} |} empty_world.

End Examples.
Export Examples.

(** * Further notions and inputs *)

Module Further.

(** What the decoder makes of a string written by the encoder: each high
    surrogate immediately followed by a low surrogate becomes the one code
    point the two stand for; everything else is kept. *)
Fixpoint join_surrogate_pairs (s : pystr) : pystr :=
  match s with
  | [] => []
  | a :: r =>
    match r with
    | b :: r' =>
      if is_high_surrogate a && is_low_surrogate b
      then join_surrogates a b :: join_surrogate_pairs r'
      else a :: join_surrogate_pairs r
    | [] => [a]
    end
  end.

(** Printable ASCII or a line feed. *)
Definition is_ascii_text (s : pystr) : bool :=
  forallb (fun c => (c =? 10) || ((32 <=? c) && (c <=? 126)))%N s.

(** The calls [run_agent] makes for a prompt, in order: each call is made
    only if the one before returned, and [wait_for_ready] only for a run that
    needs a clarification. *)
Definition expected_calls (svc : Service) (p : Prompt) : list call :=
  CallSetup ::
  match setup svc with
  | Raise _ => []
  | Return _ =>
    CallPlan p ::
    match plan svc p with
    | Raise _ => []
    | Return pl =>
      CallRunPlan pl ::
      match run_plan svc pl with
      | Raise _ => []
      | Return run =>
        if bool_decide (state run = NEED_CLARIFICATION) then [CallWaitForReady run] else []
      end
    end
  end.

(** The prompt [run_agent] builds in a world. *)
Definition prompt_of (w : world) : Prompt :=
  {| prompt_parent_email := default [] (environ w !! py "PARENT_EMAIL");
     prompt_channel_id := default [] (environ w !! py "SLACK_CHANNEL_ID") |}.

(** Both addresses are set and not empty. *)
Definition configured (w : world) : bool :=
  negb (unset_or_empty (environ w !! py "PARENT_EMAIL")
        || unset_or_empty (environ w !! py "SLACK_CHANNEL_ID")).

(** A checkpoint whose [last_ts] is the number 5. *)
Definition numeric_checkpoint : pystr :=
  py "{" ++ encode_basestring_ascii (py "last_ts") ++ py ": 5}".


(** A process whose PORTIA_API_KEY is set to the empty string while the
    .env file gives it a value. *)
Definition shadowed_key_world : world :=
  {| environ := {[ py "PORTIA_API_KEY" := [] ]};
     dotenv := {[ py "PORTIA_API_KEY" := py "key-from-dotenv" ]};
     fs := no_files; stdout := []; service_log := [] |}.

(** The number of opening brackets and braces in a text: no JSON value it
    holds nests deeper than that. *)
Definition opening_brackets (s : pystr) : nat :=
  length (List.filter (fun c => (c =? 91) || (c =? 123))%N s).

(** A nesting depth that the JSON decoder reaches in every interpreter
    without exhausting its recursion limit (a thousand frames by default). *)
Definition safe_nesting : nat := 100.

(** The exceptions [run_agent] raises itself, whose message is fixed text
    of the script or of the interpreter: the configuration error, the
    failure of the plan run, and the missing final output. *)
Definition own_exception (e : exn) : Prop :=
  e = env_error \/ (exists st, e = PlanRunFailure st) \/ e = AttributeError "value".

(** A message without a timestamp. *)
Definition untimed_message : gmap (list N) pyval :=
  {[ py "text" := PyStr (py "no timestamp") ]}.

End Further.
Export Further.

(** * Proofs *)

(** ** The JSON string codec *)

Ltac div_lia := zify; Z.to_euclidean_division_equations; lia.

Lemma hexval_hexdigit (d : N) : (d < 16)%N -> hexval (hexdigit d) = Some d.
Proof.
  intros H.
  assert (Hd : In d [0;1;2;3;4;5;6;7;8;9;10;11;12;13;14;15]%N).
  { simpl. lia. }
  simpl in Hd.
  repeat (destruct Hd as [<- | Hd]; [reflexivity |]). destruct Hd.
Qed.

Lemma hex4val_u_escape (n : N) :
  (n < 65536)%N ->
  hex4val (hexdigit (n / 4096 mod 16)) (hexdigit (n / 256 mod 16))
          (hexdigit (n / 16 mod 16)) (hexdigit (n mod 16)) = Some n.
Proof.
  intros H. unfold hex4val.
  rewrite !hexval_hexdigit by (apply N.mod_lt; discriminate).
  f_equal. div_lia.
Qed.


Lemma scanstring_u_escape (n : N) (k : pystr) :
  (n < 65536)%N ->
  (is_high_surrogate n = true -> starts_low_escape k = false) ->
  scanstring (u_escape n ++ k) = prepend n (scanstring k).
Proof.
  intros Hn Hk. unfold u_escape. cbn [app scanstring].
  change (92 =? 34)%N with false. change (92 =? 92)%N with true.
  change (117 =? 117)%N with true. cbn iota.
  rewrite hex4val_u_escape by assumption.
  destruct (is_high_surrogate n) eqn:Hh; [| reflexivity].
  specialize (Hk eq_refl).
  destruct k as [| b [| x [| g1 [| g2 [| g3 [| g4 r12]]]]]]; try reflexivity.
  cbn [starts_low_escape] in Hk.
  destruct ((b =? 92) && (x =? 117))%N eqn:Hbx; [| reflexivity].
  cbn [andb] in Hk.
  apply andb_true_iff in Hbx as [Hb Hx].
  apply N.eqb_eq in Hb, Hx. subst b x.
  destruct (hex4val g1 g2 g3 g4) as [u2 |] eqn:Hg.
  - rewrite Hk. reflexivity.
  - cbn [scanstring]. change (92 =? 34)%N with false. change (92 =? 92)%N with true.
    change (117 =? 117)%N with true. cbn iota. rewrite Hg. reflexivity.
Qed.

Lemma scanstring_surrogate_escapes (hi lo : N) (k : pystr) :
  (hi < 65536)%N -> (lo < 65536)%N ->
  is_high_surrogate hi = true -> is_low_surrogate lo = true ->
  scanstring (u_escape hi ++ u_escape lo ++ k)
  = prepend (join_surrogates hi lo) (scanstring k).
Proof.
  intros Hhi Hlo Hh Hl. unfold u_escape. cbn [app scanstring].
  change (92 =? 34)%N with false. change (92 =? 92)%N with true.
  change (117 =? 117)%N with true. cbn iota. cbn [andb].
  rewrite !hex4val_u_escape by assumption.
  rewrite Hh, Hl. reflexivity.
Qed.

Lemma scanstring_escape_char (c : N) (k : pystr) :
  valid_codepoint c ->
  (is_high_surrogate c = true -> starts_low_escape k = false) ->
  scanstring (escape_char c ++ k) = prepend c (scanstring k).
Proof.
  intros Hc Hk. unfold escape_char, valid_codepoint, max_codepoint in *.
  repeat match goal with
  | |- context [(c =? ?n)%N] =>
    destruct (N.eqb_spec c n) as [-> | ?]; [reflexivity |]
  end.
  destruct ((32 <=? c) && (c <=? 126))%N eqn:Hp.
  - cbn [app scanstring].
    apply andb_true_iff in Hp as [H1 H2]. apply N.leb_le in H1, H2.
    destruct (N.eqb_spec c 34); [contradiction |].
    destruct (N.eqb_spec c 92); [contradiction |].
    destruct (N.ltb_spec c 32); [lia | reflexivity].
  - destruct (N.ltb_spec c 65536).
    + apply scanstring_u_escape; assumption.
    + cbv zeta. rewrite <- app_assoc.
      rewrite scanstring_surrogate_escapes.
      * f_equal. unfold join_surrogates. div_lia.
      * div_lia.
      * div_lia.
      * unfold is_high_surrogate. apply andb_true_iff. split; apply N.leb_le; div_lia.
      * unfold is_low_surrogate. apply andb_true_iff. split; apply N.leb_le; div_lia.
Qed.

Lemma starts_low_escape_u_escape (n : N) (k : pystr) :
  (n < 65536)%N -> starts_low_escape (u_escape n ++ k) = is_low_surrogate n.
Proof.
  intros Hn. unfold u_escape. cbn [app starts_low_escape].
  rewrite hex4val_u_escape by assumption. reflexivity.
Qed.

Lemma starts_low_escape_escape_char (c : N) (k : pystr) :
  valid_codepoint c ->
  starts_low_escape (escape_char c ++ k) = true -> is_low_surrogate c = true.
Proof.
  intros Hc. unfold escape_char, valid_codepoint, max_codepoint in *.
  repeat match goal with
  | |- context [(c =? ?n)%N] =>
    destruct (N.eqb_spec c n) as [-> | ?];
    [cbn [app starts_low_escape]; destruct k as [| ? [| ? [| ? [| ? ?]]]]; discriminate |]
  end.
  destruct ((32 <=? c) && (c <=? 126))%N eqn:Hp.
  - cbn [app starts_low_escape].
    destruct k as [| x [| g1 [| g2 [| g3 [| g4 r]]]]]; try discriminate.
    destruct (N.eqb_spec c 92); [contradiction | discriminate].
  - destruct (N.ltb_spec c 65536).
    + rewrite starts_low_escape_u_escape by assumption. trivial.
    + cbv zeta. rewrite <- app_assoc. rewrite starts_low_escape_u_escape by div_lia.
      unfold is_low_surrogate. intros Hlow. apply andb_true_iff in Hlow as [H1 H2].
      apply N.leb_le in H1, H2. exfalso. div_lia.
Qed.

Lemma scanstring_escaped (s rest : pystr) :
  valid_str s -> no_surrogate_pair s = true ->
  scanstring (concat (map escape_char s) ++ 34%N :: rest) = Some (s, rest).
Proof.
  intros Hv. induction Hv as [| c s Hc Hs IH]; intros Hn.
  - reflexivity.
  - cbn [map concat]. rewrite <- app_assoc.
    cbn [no_surrogate_pair] in Hn. apply andb_true_iff in Hn as [Hpair Hn].
    rewrite scanstring_escape_char.
    + rewrite IH by assumption. reflexivity.
    + assumption.
    + intros Hh. rewrite Hh in Hpair. cbn [andb] in Hpair.
      destruct s as [| b s'].
      * destruct rest as [| ? [| ? [| ? [| ? [| ? ?]]]]]; reflexivity.
      * cbn [map concat]. rewrite <- app_assoc.
        destruct (starts_low_escape _) eqn:Hl; [| reflexivity].
        apply starts_low_escape_escape_char in Hl.
        -- rewrite Hl in Hpair. discriminate.
        -- inversion Hs; assumption.
Qed.

Lemma dumps_checkpoint_text (ts : pystr) :
  dumps_entry_indent2 (py "last_ts") ts
  = [123; 10; 32; 32; 34; 108; 97; 115; 116; 95; 116; 115; 34; 58; 32; 34]%N
    ++ concat (map escape_char ts) ++ [34; 10; 125]%N.
Proof. unfold dumps_entry_indent2, encode_basestring_ascii. rewrite <- !app_assoc. reflexivity. Qed.

Lemma scan_checkpoint (pf : pystr -> spec_float) (fuel : nat) (ts : pystr) :
  valid_str ts -> no_surrogate_pair ts = true ->
  scan_once pf (S (S (S fuel))) (dumps_entry_indent2 (py "last_ts") ts)
  = Scanned (PyDict {[ py "last_ts" := PyStr ts ]}) [].
Proof.
  intros Hv Hn. rewrite dumps_checkpoint_text.
  cbn [app scan_once skip_ws is_ws N.eqb Pos.eqb orb parse_object scanstring N.ltb N.compare Pos.compare Pos.compare_cont prepend].
  rewrite (scanstring_escaped ts [10; 125]%N Hv Hn).
  cbn [app scan_once skip_ws is_ws N.eqb Pos.eqb orb parse_object scanstring N.ltb N.compare Pos.compare Pos.compare_cont prepend].
  reflexivity.
Qed.

Lemma skip_ws_length (s : pystr) : length (skip_ws s) <= length s.
Proof. induction s as [| c r IH]; cbn; [lia |]. destruct (is_ws c); cbn; lia. Qed.

Lemma prepend_Some c r str rest :
  prepend c r = Some (str, rest) -> exists str', r = Some (str', rest).
Proof. destruct r as [[s' r'] |]; cbn; [| discriminate]. intros [= <- <-]. eauto. Qed.

Lemma scanstring_length (s str rest : pystr) :
  scanstring s = Some (str, rest) -> length rest < length s.
Proof.
  remember (length s) as n eqn:Hlen.
  assert (Hle : length s <= n) by lia. clear Hlen.
  revert s str rest Hle.
  induction n as [| n IH]; intros s str rest Hle; (destruct s as [| c r]; [discriminate |]);
    cbn [length] in *; [lia |].
  cbn [scanstring].
  repeat case_match; subst; cbn [length] in *; try discriminate;
    try (intros [= <- <-]; lia);
    intros Hp; apply prepend_Some in Hp as [str' Hp]; apply IH in Hp; cbn [length] in *; lia.
Qed.

Lemma span_digits_length (s ds rest : pystr) :
  span_digits s = (ds, rest) -> length rest <= length s.
Proof.
  revert ds rest. induction s as [| c r IH]; intros ds rest; cbn.
  - intros [= <- <-]. cbn. lia.
  - destruct (is_digit c).
    + destruct (span_digits r) as [ds' rest'] eqn:E. intros [= <- <-].
      specialize (IH _ _ eq_refl). lia.
    + intros [= <- <-]. cbn. lia.
Qed.

Lemma match_integer_length (s lex rest : pystr) :
  match_integer s = Some (lex, rest) -> length rest < length s.
Proof.
  unfold match_integer.
  repeat case_match; simplify_eq; intros [= <- <-];
    repeat match goal with
    | H : span_digits _ = _ |- _ => apply span_digits_length in H
    end; cbn [length] in *; lia.
Qed.

Lemma match_frac_length (s lex rest : pystr) :
  match_frac s = (lex, rest) -> length rest <= length s.
Proof.
  unfold match_frac.
  repeat case_match; subst; intros [= <- <-];
    repeat match goal with
    | H : span_digits _ = _ |- _ => apply span_digits_length in H
    end; cbn [length] in *; lia.
Qed.

Lemma match_exp_length (s lex rest : pystr) :
  match_exp s = (lex, rest) -> length rest <= length s.
Proof.
  unfold match_exp.
  repeat case_match; simplify_eq; intros [= <- <-];
    repeat match goal with
    | H : span_digits _ = _ |- _ => apply span_digits_length in H
    end; cbn [length] in *; lia.
Qed.

Lemma starts_with_length (p s rest : pystr) :
  starts_with p s = Some rest -> length rest + length p = length s.
Proof.
  revert s. induction p as [| a p IH]; intros s; cbn.
  - intros [= <-]. lia.
  - destruct s as [| c s']; [discriminate |]. destruct (a =? c)%N; [| discriminate].
    intros H. apply IH in H. cbn. lia.
Qed.

Lemma scan_number_length pf (s : pystr) v rest :
  scan_number pf s = Scanned v rest -> length rest < length s.
Proof.
  unfold scan_number.
  destruct (match_integer s) as [[ip r1] |] eqn:E1; [| discriminate].
  destruct (match_frac r1) as [fr r2] eqn:E2.
  destruct (match_exp r2) as [ex r3] eqn:E3.
  apply match_integer_length in E1. apply match_frac_length in E2.
  apply match_exp_length in E3.
  repeat case_match; try discriminate; intros [= <- <-]; lia.
Qed.

Lemma scan_atom_length pf (s : pystr) v rest :
  scan_atom pf s = Scanned v rest -> length rest < length s.
Proof.
  unfold scan_atom.
  repeat case_match;
    try (intros [= <- <-];
         match goal with H : starts_with _ _ = Some _ |- _ =>
           apply starts_with_length in H; unfold py in H; cbn in H; lia end).
  apply scan_number_length.
Qed.

Lemma scan_atom_fuel pf (s : pystr) : scan_atom pf s <> OutOfFuel.
Proof.
  unfold scan_atom, scan_number. repeat case_match; discriminate.
Qed.

Section Fuel.
Variable pf : pystr -> spec_float.

Lemma consumes_failed e s : consumes (Failed e) s.
Proof. split; [discriminate | intros ? ? [=]]. Qed.

Lemma consumes_scanned v rest s : length rest < length s -> consumes (Scanned v rest) s.
Proof. intros H. split; [discriminate | intros ? ? [= <- <-]; exact H]. Qed.

Lemma consumes_weaken r s s' : consumes r s -> length s <= length s' -> consumes r s'.
Proof. intros [H1 H2] Hle. split; [exact H1 |]. intros v rest E. apply H2 in E. lia. Qed.

Lemma scan_fuel_adequate (fuel : nat) :
  (forall s, 2 * length s < fuel -> consumes (scan_once pf fuel s) s)
  /\ (forall acc s, 2 * length s + 1 < fuel -> consumes (parse_object pf fuel acc s) s)
  /\ (forall acc s, 2 * length s + 1 < fuel -> consumes (parse_array pf fuel acc s) s).
Proof.
  induction fuel as [| fuel (IHs & IHo & IHa)].
  - repeat split; intros; lia.
  - split; [| split].
    + intros s Hf. cbn [scan_once].
      destruct s as [| c r]; [apply consumes_failed |].
      destruct (c =? 34)%N.
      { destruct (scanstring r) as [[str rest] |] eqn:E; [| apply consumes_failed].
        apply scanstring_length in E. apply consumes_scanned. cbn. lia. }
      destruct (c =? 123)%N.
      { pose proof (skip_ws_length r) as Hw.
        destruct (skip_ws r) as [| c' r']; [apply consumes_failed |].
        cbn [length] in *.
        destruct (c' =? 125)%N; [apply consumes_scanned; cbn; lia |].
        eapply consumes_weaken; [apply IHo |]; cbn [length]; lia. }
      destruct (c =? 91)%N.
      { pose proof (skip_ws_length r) as Hw.
        destruct (skip_ws r) as [| c' r']; [apply consumes_failed |].
        cbn [length] in *.
        destruct (c' =? 93)%N; [apply consumes_scanned; cbn; lia |].
        eapply consumes_weaken; [apply IHa |]; cbn [length]; lia. }
      split; [apply scan_atom_fuel | apply scan_atom_length].
    + intros acc s Hf. cbn [parse_object].
      destruct s as [| c r]; [apply consumes_failed |].
      destruct (c =? 34)%N; [| apply consumes_failed].
      destruct (scanstring r) as [[key rest] |] eqn:E; [| apply consumes_failed].
      apply scanstring_length in E.
      pose proof (skip_ws_length rest) as Hw.
      destruct (skip_ws rest) as [| c2 r2]; [apply consumes_failed |].
      destruct (c2 =? 58)%N; [| apply consumes_failed].
      pose proof (skip_ws_length r2) as Hw2.
      cbn [length] in *.
      destruct (IHs (skip_ws r2)) as [Hfuel Hlen]; [lia |].
      destruct (scan_once pf fuel (skip_ws r2)) as [v rest2 | e |] eqn:Ev;
        [| apply consumes_failed | contradiction].
      specialize (Hlen _ _ eq_refl).
      pose proof (skip_ws_length rest2) as Hw3.
      destruct (skip_ws rest2) as [| c3 r3]; [apply consumes_failed |].
      cbn [length] in *.
      destruct (c3 =? 125)%N; [apply consumes_scanned; cbn; lia |].
      destruct (c3 =? 44)%N; [| apply consumes_failed].
      pose proof (skip_ws_length r3) as Hw4.
      eapply consumes_weaken; [apply IHo |]; cbn [length]; lia.
    + intros acc s Hf. cbn [parse_array].
      destruct (IHs s) as [Hfuel Hlen]; [lia |].
      destruct (scan_once pf fuel s) as [v rest | e |] eqn:Ev;
        [| apply consumes_failed | contradiction].
      specialize (Hlen _ _ eq_refl).
      pose proof (skip_ws_length rest) as Hw.
      destruct (skip_ws rest) as [| c r]; [apply consumes_failed |].
      cbn [length] in *.
      destruct (c =? 93)%N; [apply consumes_scanned; lia |].
      destruct (c =? 44)%N; [| apply consumes_failed].
      pose proof (skip_ws_length r) as Hw2.
      eapply consumes_weaken; [apply IHa |]; lia.
Qed.

Lemma json_loads_fuel (s : pystr) :
  scan_once pf (2 * length s + 1) (skip_ws s) <> OutOfFuel.
Proof.
  apply scan_fuel_adequate. pose proof (skip_ws_length s). lia.
Qed.
End Fuel.

(** ** Decoding the checkpoint text *)

Lemma dumps_checkpoint_strip (ts : pystr) :
  strip (dumps_entry_indent2 (py "last_ts") ts) = dumps_entry_indent2 (py "last_ts") ts.
Proof.
  rewrite dumps_checkpoint_text. unfold strip.
  cbn [app lstrip]. change (isspace 123) with false. cbn iota.
  change (123 :: 10 :: 32 :: 32 :: 34 :: 108 :: 97 :: 115 :: 116 :: 95 :: 116 :: 115
          :: 34 :: 58 :: 32 :: 34 :: concat (map escape_char ts) ++ [34; 10; 125])%N
    with ([123; 10; 32; 32; 34; 108; 97; 115; 116; 95; 116; 115; 34; 58; 32; 34]%N
          ++ concat (map escape_char ts) ++ [34; 10; 125]%N).
  rewrite !rev_app_distr. cbn [rev app lstrip]. change (isspace 125) with false.
  cbn iota.
  change (125 :: 10 :: 34 :: rev (concat (map escape_char ts))
          ++ [34; 32; 58; 34; 115; 116; 95; 116; 115; 97; 108; 34; 32; 32; 10; 123])%N
    with ([125; 10; 34]%N ++ rev (concat (map escape_char ts))
          ++ rev [123; 10; 32; 32; 34; 108; 97; 115; 116; 95; 116; 115; 34; 58; 32; 34]%N).
  rewrite !rev_app_distr, !rev_involutive, <- !app_assoc. reflexivity.
Qed.

Lemma json_loads_checkpoint (pf : pystr -> spec_float) (ts : pystr) :
  valid_str ts -> no_surrogate_pair ts = true ->
  json_loads pf (dumps_entry_indent2 (py "last_ts") ts)
  = Return (PyDict {[ py "last_ts" := PyStr ts ]}).
Proof.
  intros Hv Hn. unfold json_loads.
  assert (Hfuel : exists n, 2 * length (dumps_entry_indent2 (py "last_ts") ts) + 1
                            = S (S (S n))).
  { rewrite dumps_checkpoint_text. cbn [app length]. eexists. cbn. reflexivity. }
  destruct Hfuel as [n ->].
  assert (Hws : skip_ws (dumps_entry_indent2 (py "last_ts") ts)
                = dumps_entry_indent2 (py "last_ts") ts).
  { rewrite dumps_checkpoint_text. reflexivity. }
  rewrite Hws, scan_checkpoint by assumption.
  rewrite dumps_checkpoint_text. reflexivity.
Qed.

(** ** The monad *)

(** What each update of the world does to each of its components. *)
Create Rewrite HintDb world.

Lemma environ_set_fs (f : filesystem) (w : world) : environ (set_fs f w) = environ w.
Proof. reflexivity. Qed.

Lemma dotenv_set_fs (f : filesystem) (w : world) : dotenv (set_fs f w) = dotenv w.
Proof. reflexivity. Qed.

Lemma fs_set_fs (f : filesystem) (w : world) : fs (set_fs f w) = f.
Proof. reflexivity. Qed.

Lemma stdout_set_fs (f : filesystem) (w : world) : stdout (set_fs f w) = stdout w.
Proof. reflexivity. Qed.

Lemma service_log_set_fs (f : filesystem) (w : world) : service_log (set_fs f w) = service_log w.
Proof. reflexivity. Qed.

Lemma environ_set_environ (env : gmap (list N) (list N)) (w : world) : environ (set_environ env w) = env.
Proof. reflexivity. Qed.

Lemma dotenv_set_environ (env : gmap (list N) (list N)) (w : world) : dotenv (set_environ env w) = dotenv w.
Proof. reflexivity. Qed.

Lemma fs_set_environ (env : gmap (list N) (list N)) (w : world) : fs (set_environ env w) = fs w.
Proof. reflexivity. Qed.

Lemma stdout_set_environ (env : gmap (list N) (list N)) (w : world) : stdout (set_environ env w) = stdout w.
Proof. reflexivity. Qed.

Lemma service_log_set_environ (env : gmap (list N) (list N)) (w : world) : service_log (set_environ env w) = service_log w.
Proof. reflexivity. Qed.

Lemma environ_add_stdout (line : printed) (w : world) : environ (add_stdout line w) = environ w.
Proof. reflexivity. Qed.

Lemma dotenv_add_stdout (line : printed) (w : world) : dotenv (add_stdout line w) = dotenv w.
Proof. reflexivity. Qed.

Lemma fs_add_stdout (line : printed) (w : world) : fs (add_stdout line w) = fs w.
Proof. reflexivity. Qed.

Lemma stdout_add_stdout (line : printed) (w : world) : stdout (add_stdout line w) = stdout w ++ [line].
Proof. reflexivity. Qed.

Lemma service_log_add_stdout (line : printed) (w : world) : service_log (add_stdout line w) = service_log w.
Proof. reflexivity. Qed.

Lemma environ_add_call (c : call) (w : world) : environ (add_call c w) = environ w.
Proof. reflexivity. Qed.

Lemma dotenv_add_call (c : call) (w : world) : dotenv (add_call c w) = dotenv w.
Proof. reflexivity. Qed.

Lemma fs_add_call (c : call) (w : world) : fs (add_call c w) = fs w.
Proof. reflexivity. Qed.

Lemma stdout_add_call (c : call) (w : world) : stdout (add_call c w) = stdout w.
Proof. reflexivity. Qed.

Lemma service_log_add_call (c : call) (w : world) : service_log (add_call c w) = service_log w ++ [c].
Proof. reflexivity. Qed.

#[global] Hint Rewrite environ_set_fs dotenv_set_fs fs_set_fs stdout_set_fs service_log_set_fs environ_set_environ dotenv_set_environ fs_set_environ stdout_set_environ service_log_set_environ environ_add_stdout dotenv_add_stdout fs_add_stdout stdout_add_stdout service_log_add_stdout environ_add_call dotenv_add_call fs_add_call stdout_add_call service_log_add_call : world.

(** Unfolds the monad's operations and the primitive effects, and nothing
    of the data they carry. *)
Ltac run_monad :=
  cbv beta iota zeta delta
    [mbind M_bind bind try_except mret M_ret ret lift raise print getenv path_exists
     read_text write_text service_call load_dotenv];
  cbn [fst snd negb]; autorewrite with world.

Lemma preserves_ret {A B} (proj : world -> B) (a : A) : preserves proj (mret a).
Proof. intros w. reflexivity. Qed.

Lemma preserves_raise {A B} (proj : world -> B) (e : exn) : preserves proj (@raise A e).
Proof. intros w. reflexivity. Qed.

Lemma preserves_lift {A B} (proj : world -> B) (r : result A) : preserves proj (lift r).
Proof. intros w. reflexivity. Qed.

Lemma preserves_bind {A A' B} (proj : world -> B) (m : M A) (k : A -> M A') :
  preserves proj m -> (forall a, preserves proj (k a)) -> preserves proj (m ≫= k).
Proof.
  intros Hm Hk w. unfold mbind, M_bind, bind.
  specialize (Hm w). destruct (m w) as [[a | e] w']; cbn in *.
  - rewrite Hk. exact Hm.
  - exact Hm.
Qed.

Lemma preserves_try_except {A B} (proj : world -> B) (m : M A) (h : exn -> M A) :
  preserves proj m -> (forall e, preserves proj (h e)) -> preserves proj (try_except m h).
Proof.
  intros Hm Hh w. unfold try_except.
  specialize (Hm w). destruct (m w) as [[a | e] w']; cbn in *.
  - exact Hm.
  - rewrite Hh. exact Hm.
Qed.

Lemma preserves_if {A B} (proj : world -> B) (b : bool) (m1 m2 : M A) :
  preserves proj m1 -> preserves proj m2 -> preserves proj (if b then m1 else m2).
Proof. destruct b; trivial. Qed.

Lemma preserves_getenv {B} (proj : world -> B) name : preserves proj (getenv name).
Proof. intros w. reflexivity. Qed.

Lemma preserves_path_exists {B} (proj : world -> B) path : preserves proj (path_exists path).
Proof. intros w. reflexivity. Qed.

Lemma preserves_read_text {B} (proj : world -> B) path : preserves proj (read_text path).
Proof. intros w. unfold read_text. repeat case_match; reflexivity. Qed.

Lemma print_fs text xs : preserves fs (print text xs).
Proof. intros w. reflexivity. Qed.

Lemma print_service_log text xs : preserves service_log (print text xs).
Proof. intros w. reflexivity. Qed.

Lemma print_environ text xs : preserves environ (print text xs).
Proof. intros w. reflexivity. Qed.

Lemma service_call_fs {A} c (r : result A) : preserves fs (service_call c r).
Proof. intros w. reflexivity. Qed.

Lemma service_call_environ {A} c (r : result A) : preserves environ (service_call c r).
Proof. intros w. reflexivity. Qed.

Create HintDb frame discriminated.
#[global] Hint Resolve preserves_ret preserves_raise preserves_lift preserves_getenv
  preserves_path_exists preserves_read_text print_fs print_service_log print_environ
  service_call_fs service_call_environ : frame.

(** Composite computations are handled clause by clause. *)
Ltac frame :=
  repeat first
    [ apply preserves_bind; [| intros ?]
    | apply preserves_try_except; [| intros ?]
    | apply preserves_if
    | progress eauto with frame
    | match goal with |- preserves _ (match ?x with _ => _ end) => destruct x end ].

Lemma total_ret {A} (a : A) : total (mret a).
Proof. intros w. exists a. reflexivity. Qed.

Lemma total_print text xs : total (print text xs).
Proof. intros w. exists tt. reflexivity. Qed.

Lemma total_bind {A B} (m : M A) (k : A -> M B) :
  total m -> (forall a, total (k a)) -> total (m ≫= k).
Proof.
  intros Hm Hk w. unfold mbind, M_bind, bind.
  destruct (Hm w) as [a Ha]. destruct (m w) as [r w']. cbn in Ha. subst r.
  apply Hk.
Qed.

Lemma total_try_except {A} (m : M A) (h : exn -> M A) :
  (forall e, total (h e)) -> total (try_except m h).
Proof.
  intros Hh w. unfold try_except. destruct (m w) as [[a | e] w'].
  - exists a. reflexivity.
  - apply Hh.
Qed.

(** ** The checkpoint file *)

Lemma get_guardian_state_total pf : total (get_guardian_state pf).
Proof.
  apply total_try_except. intros e.
  apply total_bind; [apply total_print | intros _; apply total_ret].
Qed.

Lemma get_guardian_state_fs pf : preserves fs (get_guardian_state pf).
Proof. unfold get_guardian_state. frame. Qed.

Lemma get_guardian_state_service_log pf : preserves service_log (get_guardian_state pf).
Proof. unfold get_guardian_state. frame. Qed.

Lemma get_guardian_state_environ pf : preserves environ (get_guardian_state pf).
Proof. unfold get_guardian_state. frame. Qed.

Lemma valid_str_py (s : string) : valid_str (py s).
Proof.
  unfold valid_str, py. apply Forall_map, Forall_forall. intros a _.
  unfold valid_codepoint, max_codepoint. pose proof (N_ascii_bounded a). lia.
Qed.

Lemma save_guardian_state_returns ts w : fst (save_guardian_state ts w) = Return tt.
Proof.
  unfold save_guardian_state. run_monad.
  destruct (write_fault (fs w) !! state_file) as [[| n] |]; reflexivity.
Qed.

Lemma save_guardian_state_service_log ts : preserves service_log (save_guardian_state ts).
Proof.
  intros w. unfold save_guardian_state. run_monad.
  destruct (write_fault (fs w) !! state_file) as [[| n] |]; reflexivity.
Qed.

Lemma save_guardian_state_success ts w :
  write_fault (fs w) !! state_file = None ->
  fs (snd (save_guardian_state ts w))
  = set_contents state_file (dumps_entry_indent2 (py "last_ts") ts) (fs w).
Proof.
  intros Hw. unfold save_guardian_state. run_monad.
  rewrite Hw. reflexivity.
Qed.

(** C2, as amended.  When the checkpoint file is missing, cannot be read,
    is empty once surrounding white space is stripped, or what remains after
    stripping is not valid JSON, [get_guardian_state] returns the empty
    string; it raises in no world. *)
Theorem get_guardian_state_empty_on_bad_file (pf : pystr -> spec_float) (w : world) :
  contents (fs w) !! state_file = None
  \/ state_file ∈ read_denied (fs w)
  \/ (exists text, contents (fs w) !! state_file = Some text
                   /\ (strip text = [] \/ exists e, json_loads pf (strip text) = Raise e)) ->
  fst (get_guardian_state pf w) = Return (PyStr [])
  /\ forall w', returns (fst (get_guardian_state pf w')).
Proof.
  intros H. split; [| apply get_guardian_state_total].
  unfold get_guardian_state. run_monad.
  destruct H as [Hmiss | [Hden | (text & Htext & Hbad)]].
  - rewrite Hmiss. rewrite bool_decide_eq_false_2 by (intros [? [=]]). reflexivity.
  - destruct (contents (fs w) !! state_file) as [text |] eqn:Htext.
    + rewrite bool_decide_eq_true_2 by eauto. run_monad.
      rewrite bool_decide_eq_true_2 by assumption. reflexivity.
    + rewrite bool_decide_eq_false_2 by (intros [? [=]]). reflexivity.
  - rewrite Htext. rewrite bool_decide_eq_true_2 by eauto. run_monad.
    destruct (bool_decide (state_file ∈ read_denied (fs w))); [reflexivity |].
    run_monad. rewrite Htext. run_monad.
    destruct Hbad as [Hempty | [e He]].
    + rewrite Hempty. reflexivity.
    + destruct (strip text) as [| c r] eqn:Hs; [reflexivity |].
      change (negb (truthy (PyStr (c :: r)))) with false. run_monad.
      rewrite He. reflexivity.
Qed.

Lemma get_guardian_state_empty_on_bad_file_witness :
  fst (get_guardian_state default_parse_float empty_world) = Return (PyStr [])
  /\ forall w', returns (fst (get_guardian_state default_parse_float w')).
Proof.
  apply (get_guardian_state_empty_on_bad_file default_parse_float empty_world).
  left. reflexivity.
Defined.

(** C2, as stated, fails: a checkpoint that starts with a form feed is not
    valid JSON, yet [get_guardian_state] strips the form feed and returns
    the stored timestamp, not the empty string. *)
Lemma get_guardian_state_strips_before_parsing :
  json_loads default_parse_float formfeed_checkpoint = Raise JSONDecodeError
  /\ fst (get_guardian_state default_parse_float (world_with_state formfeed_checkpoint))
     = Return (PyStr (py "1712345678.000200")).
Proof. split; vm_compute; reflexivity. Qed.

Lemma encodable_no_surrogate_pair (s : pystr) :
  encodable s = true -> no_surrogate_pair s = true.
Proof.
  induction s as [| a r IH]; [reflexivity |].
  cbn [encodable forallb no_surrogate_pair]. intros H.
  apply andb_true_iff in H as [Ha Hr]. rewrite (IH Hr), andb_true_r.
  unfold is_surrogate in Ha. apply negb_true_iff, orb_false_iff in Ha as [-> _].
  reflexivity.
Qed.

(** C4, as amended.  For a string that holds no surrogate code point, when
    the checkpoint can be written and read back, [save_guardian_state ts]
    followed by [get_guardian_state] returns [ts]. *)
Theorem save_then_load_roundtrip (pf : pystr -> spec_float) (ts : pystr) (w : world) :
  valid_str ts ->
  encodable ts = true ->
  write_fault (fs w) !! state_file = None ->
  state_file ∉ read_denied (fs w) ->
  fst (get_guardian_state pf (snd (save_guardian_state ts w))) = Return (PyStr ts).
Proof.
  intros Hv He Hw Hr.
  pose proof (encodable_no_surrogate_pair ts He) as Hn.
  pose proof (save_guardian_state_success ts w Hw) as Hfs.
  set (w1 := snd (save_guardian_state ts w)) in *.
  unfold get_guardian_state. run_monad.
  rewrite Hfs. cbn [set_contents contents read_denied].
  rewrite lookup_insert_eq.
  rewrite bool_decide_eq_true_2 by eauto. run_monad.
  rewrite Hfs. cbn [set_contents contents read_denied].
  rewrite bool_decide_eq_false_2 by assumption.
  rewrite lookup_insert_eq. run_monad.
  rewrite dumps_checkpoint_strip.
  assert (Htruthy : truthy (PyStr (dumps_entry_indent2 (py "last_ts") ts)) = true).
  { rewrite dumps_checkpoint_text. reflexivity. }
  rewrite Htruthy. run_monad.
  rewrite json_loads_checkpoint by assumption. run_monad.
  cbn [get_last_ts]. unfold dict_get. rewrite lookup_singleton_eq.
  destruct (truthy (PyStr ts)); reflexivity.
Qed.

Lemma save_then_load_roundtrip_witness :
  fst (get_guardian_state default_parse_float
         (snd (save_guardian_state (py "1712345678.000200") empty_world)))
  = Return (PyStr (py "1712345678.000200")).
Proof.
  apply (save_then_load_roundtrip default_parse_float (py "1712345678.000200") empty_world).
  - apply valid_str_py.
  - vm_compute. reflexivity.
  - reflexivity.
  - apply not_elem_of_empty.
Defined.

(** C4, as stated, fails: the string made of the two surrogates U+D83D and
    U+DE00 is written as two [\uXXXX] escapes, which the decoder joins into
    the single code point U+1F600. *)
Lemma save_then_load_joins_surrogates :
  fst (get_guardian_state default_parse_float
         (snd (save_guardian_state surrogate_pair_ts empty_world)))
  = Return (PyStr [128512%N])
  /\ PyStr [128512%N] <> PyStr surrogate_pair_ts.
Proof. split; [vm_compute; reflexivity | discriminate]. Qed.

(** C7.  [save_guardian_state ts] returns normally in every world.  When
    the file can be written, its content becomes the JSON text of the object
    with the single member [last_ts] holding [ts] (indent 2); when the write
    fails, the error is printed and nothing is raised. *)
Theorem save_guardian_state_writes_or_logs (ts : pystr) (w : world) :
  fst (save_guardian_state ts w) = Return tt
  /\ match write_fault (fs w) !! state_file with
     | None =>
       contents (fs (snd (save_guardian_state ts w)))
       = <[state_file := py "{" ++ [10%N] ++ py "  " ++ [34%N] ++ py "last_ts" ++ [34%N]
                         ++ py ": " ++ encode_basestring_ascii ts ++ [10%N] ++ py "}"]>
           (contents (fs w))
     | Some _ =>
       stdout (snd (save_guardian_state ts w))
       = stdout w ++ [Printed "❌ Error saving state file: {e}" [AExn (OSError state_file)]]
     end.
Proof.
  split; [apply save_guardian_state_returns |].
  unfold save_guardian_state. run_monad.
  destruct (write_fault (fs w) !! state_file) as [[| n] |]; run_monad; reflexivity.
Qed.

(** ** The result validator *)

Lemma setdefault_lookup (key k : pystr) (v : pyval) (d : gmap (list N) pyval) :
  setdefault key v d !! k
  = match d !! k with
    | Some x => Some x
    | None => if bool_decide (k = key) then Some v else None
    end.
Proof.
  unfold setdefault. destruct (d !! key) as [x |] eqn:Hkey.
  - destruct (d !! k) as [y |] eqn:Hk; [reflexivity |].
    case_bool_decide; [subst; congruence | reflexivity].
  - rewrite lookup_insert. case_decide as Heq.
    + subst k. rewrite Hkey. rewrite bool_decide_eq_true_2 by reflexivity. reflexivity.
    + rewrite bool_decide_eq_false_2 by congruence.
      destruct (d !! k); reflexivity.
Qed.

Lemma fill_defaults_lookup (d : gmap (list N) pyval) (key : pystr) :
  fill_defaults d !! key
  = match d !! key with Some v => Some v | None => default_of key end.
Proof.
  unfold fill_defaults, default_of. rewrite !setdefault_lookup.
  destruct (d !! key); [reflexivity |].
  repeat case_bool_decide; subst; try reflexivity; discriminate.
Qed.

Lemma fill_defaults_fallback (outs : PlanRunOutputs) :
  fill_defaults (fallback_output outs) = fallback_output outs.
Proof.
  apply map_eq. intros key. rewrite fill_defaults_lookup.
  destruct (fallback_output outs !! key) eqn:Hk; [reflexivity |].
  unfold default_of. unfold fallback_output in Hk.
  repeat case_bool_decide; subst; try reflexivity;
    rewrite ?lookup_insert_eq in Hk;
    repeat (rewrite lookup_insert_ne in Hk by discriminate; rewrite ?lookup_insert_eq in Hk);
    discriminate.
Qed.

Lemma validate_output_status (int_field : pyval -> option Z)
    (str_field : pyval -> option pystr) (outs : PlanRunOutputs) (raw : pyval)
    (r : GuardianRunOutput) :
  validate_output int_field str_field outs raw = Return r ->
  safety_status r = py "completed".
Proof.
  unfold validate_output.
  destruct (model_validate _ _ _) as [r' | e]; [| discriminate].
  intros [= <-]. reflexivity.
Qed.

Lemma model_validate_acceptable (int_field : pyval -> option Z)
    (str_field : pyval -> option pystr) (d : gmap (list N) pyval) :
  int_field (PyInt 0) = Some 0%Z ->
  is_Some (str_field (PyStr (py "failed"))) ->
  acceptable int_field str_field d ->
  exists r, model_validate int_field str_field (fill_defaults d) = Return r.
Proof.
  intros Hint Hstr (Hs & Ha & Ht & Hst). unfold model_validate.
  rewrite !fill_defaults_lookup.
  change (default_of (py "scanned_count")) with (Some (PyInt 0)).
  change (default_of (py "alerted_count")) with (Some (PyInt 0)).
  change (default_of (py "last_ts")) with (Some PyNone).
  change (default_of (py "safety_status")) with (Some (PyStr (py "failed"))).
  assert (Es : exists n, (match d !! py "scanned_count" with
                          | Some v => Some v | None => Some (PyInt 0) end)
                         ≫= int_field = Some n).
  { destruct (d !! py "scanned_count") as [v |] eqn:E; cbn.
    - destruct (Hs v eq_refl) as [n Hn]. eauto.
    - eauto. }
  destruct Es as [n ->].
  assert (Ea : exists n, (match d !! py "alerted_count" with
                          | Some v => Some v | None => Some (PyInt 0) end)
                         ≫= int_field = Some n).
  { destruct (d !! py "alerted_count") as [v |] eqn:E; cbn.
    - destruct (Ha v eq_refl) as [m Hm]. eauto.
    - eauto. }
  destruct Ea as [m ->].
  destruct (d !! py "last_ts") as [v |] eqn:Et.
  - destruct (Ht v eq_refl) as [-> | [t Hv]].
    + destruct (d !! py "safety_status") as [u |] eqn:Eu.
      * destruct (Hst u eq_refl) as [st ->]. eauto.
      * destruct Hstr as [st ->]. eauto.
    + assert (Ev : (match v with PyNone => Some None | _ => Some <$> str_field v end)
                   = Some (match v with PyNone => None | _ => Some t end)).
      { destruct v; rewrite ?Hv; reflexivity. }
      rewrite Ev.
      destruct (d !! py "safety_status") as [u |] eqn:Eu.
      * destruct (Hst u eq_refl) as [st ->]. eauto.
      * destruct Hstr as [st ->]. eauto.
  - destruct (d !! py "safety_status") as [u |] eqn:Eu.
    + destruct (Hst u eq_refl) as [st ->]. eauto.
    + destruct Hstr as [st ->]. eauto.
Qed.

(** C1, as amended.  Whenever the validator returns, the result has its
    four fields and [safety_status] is "completed", never "failed"; and it
    does return for every raw output whose dictionary (the output itself, or
    the fallback built for a non-dictionary) carries under the four keys only
    values that pass the schema's field validation. *)
Theorem validate_output_completed (int_field : pyval -> option Z)
    (str_field : pyval -> option pystr) (outs : PlanRunOutputs) (raw : pyval) :
  int_field (PyInt 0) = Some 0%Z ->
  is_Some (str_field (PyStr (py "failed"))) ->
  (forall r, validate_output int_field str_field outs raw = Return r ->
             safety_status r = py "completed")
  /\ (acceptable int_field str_field
        (match raw with PyDict d => d | _ => fallback_output outs end) ->
      exists r, validate_output int_field str_field outs raw = Return r
                /\ safety_status r = py "completed").
Proof.
  intros Hint Hstr. split; [intros r; apply validate_output_status |].
  intros Hacc.
  destruct (model_validate_acceptable int_field str_field _ Hint Hstr Hacc) as [r Hr].
  exists (force_completed r). split; [| reflexivity].
  unfold validate_output, coerce_output. rewrite Hr. reflexivity.
Qed.

Lemma validate_output_completed_witness :
  (forall r, validate_output strict_int strict_str no_outputs partial_output = Return r ->
             safety_status r = py "completed")
  /\ (exists r, validate_output strict_int strict_str no_outputs partial_output = Return r
                /\ safety_status r = py "completed").
Proof.
  destruct (validate_output_completed strict_int strict_str no_outputs partial_output)
    as [Hstatus Hreturns].
  - reflexivity.
  - eexists. reflexivity.
  - split; [exact Hstatus | apply Hreturns].
    unfold partial_output, acceptable.
    repeat split; intros v Hv; vm_compute in Hv; simplify_eq;
      try (right); eexists; reflexivity.
Defined.

(** C1, as stated, fails: a dictionary whose [scanned_count] is [None] is
    left as it is by [setdefault] and refused by the schema, so the
    validator raises instead of returning a result. *)
Lemma validate_output_raises_on_null_count :
  validate_output strict_int strict_str no_outputs null_count_output
  = Raise (ValidationError "scanned_count").
Proof. vm_compute. reflexivity. Qed.

(** Whatever the coercions are, none of them turns [None] into an [int]. *)
Lemma validate_output_rejects_null_count (int_field : pyval -> option Z)
    (str_field : pyval -> option pystr) (outs : PlanRunOutputs) :
  int_field PyNone = None ->
  validate_output int_field str_field outs null_count_output
  = Raise (ValidationError "scanned_count").
Proof.
  intros Hnone. unfold validate_output, coerce_output, model_validate, null_count_output.
  rewrite fill_defaults_lookup, lookup_singleton_eq. cbn. rewrite Hnone. reflexivity.
Qed.

(** C3.  When the raw final output is not a dictionary, the dictionary that
    is validated holds the best-effort counts ([getattr(...) or 0]) and a
    null [last_ts]; the result has a null [last_ts], and zero counts when
    the run's outputs offer no counts. *)
Theorem non_dict_output_falls_back (int_field : pyval -> option Z)
    (str_field : pyval -> option pystr) (outs : PlanRunOutputs) (raw : pyval) :
  is_dict raw = false ->
  int_field (PyInt 0) = Some 0%Z ->
  is_Some (str_field (PyStr (py "failed"))) ->
  coerce_output outs raw !! py "scanned_count"
  = Some (py_or (getattr_or_none outs (py "scanned_count")) (PyInt 0))
  /\ coerce_output outs raw !! py "alerted_count"
     = Some (py_or (getattr_or_none outs (py "alerted_count")) (PyInt 0))
  /\ coerce_output outs raw !! py "last_ts" = Some PyNone
  /\ (forall r, validate_output int_field str_field outs raw = Return r -> last_ts r = None)
  /\ (truthy (getattr_or_none outs (py "scanned_count")) = false ->
      truthy (getattr_or_none outs (py "alerted_count")) = false ->
      validate_output int_field str_field outs raw
      = Return {| scanned_count := 0; alerted_count := 0; last_ts := None;
                  safety_status := py "completed" |}).
Proof.
  intros Hraw Hint [st Hstr].
  assert (Hco : coerce_output outs raw = fallback_output outs).
  { unfold coerce_output. destruct raw; try discriminate; apply fill_defaults_fallback. }
  assert (Hsc : fallback_output outs !! py "scanned_count"
                = Some (py_or (getattr_or_none outs (py "scanned_count")) (PyInt 0))).
  { unfold fallback_output. apply lookup_insert_eq. }
  assert (Hal : fallback_output outs !! py "alerted_count"
                = Some (py_or (getattr_or_none outs (py "alerted_count")) (PyInt 0))).
  { unfold fallback_output. rewrite lookup_insert_ne by discriminate. apply lookup_insert_eq. }
  assert (Hts : fallback_output outs !! py "last_ts" = Some PyNone).
  { unfold fallback_output. rewrite !lookup_insert_ne by discriminate. apply lookup_insert_eq. }
  assert (Hss : fallback_output outs !! py "safety_status" = Some (PyStr (py "failed"))).
  { unfold fallback_output. rewrite !lookup_insert_ne by discriminate. apply lookup_insert_eq. }
  rewrite Hco. repeat split; try assumption.
  - intros r. unfold validate_output, model_validate. rewrite Hco, Hsc, Hal, Hts, Hss.
    repeat case_match; try discriminate; intros ?; simplify_eq; reflexivity.
  - intros Hs Ha. unfold validate_output, model_validate. rewrite Hco, Hsc, Hal, Hts, Hss.
    unfold py_or. rewrite Hs, Ha. cbn. rewrite Hint. cbn. rewrite Hstr. reflexivity.
Qed.

Lemma non_dict_output_falls_back_witness :
  validate_output strict_int strict_str no_outputs (PyObj "GuardianRunOutput")
  = Return {| scanned_count := 0; alerted_count := 0; last_ts := None;
              safety_status := py "completed" |}.
Proof.
  apply (non_dict_output_falls_back strict_int strict_str no_outputs
           (PyObj "GuardianRunOutput")); try reflexivity.
  eexists. reflexivity.
Defined.

(** C8.  When the raw final output is a dictionary, a key it has keeps its
    value in the dictionary that is validated, a key it lacks gets the
    default 0, 0, null or "failed" if it is one of the four, and no other
    key appears. *)
Theorem dict_output_keeps_present_keys (outs : PlanRunOutputs)
    (d : gmap (list N) pyval) (key : pystr) :
  coerce_output outs (PyDict d) !! key
  = match d !! key with
    | Some v => Some v
    | None => default_of key
    end.
Proof. unfold coerce_output. apply fill_defaults_lookup. Qed.

(** ** Filtering messages *)

Section FilterProofs.

Variable py_float : pyval -> result spec_float.
Variable py_str : pyval -> pystr.

Lemma select_newer_filter (f0 : spec_float) (msgs : list (gmap (list N) pyval)) :
  timestamps_parse py_float msgs ->
  select_newer py_float f0 msgs = Return (List.filter (newer_than py_float f0) msgs).
Proof.
  induction 1 as [| m msgs (v & f & Hts & Hf) _ IH]; [reflexivity |].
  cbn [select_newer List.filter]. unfold is_newer, newer_than.
  rewrite Hts, Hf, IH. reflexivity.
Qed.

Lemma render_rendered_line (m : gmap (list N) pyval) :
  (forall s, py_str (PyStr s) = s) -> render py_str m = rendered_line py_str m.
Proof.
  intros Hstr. unfold render, rendered_line, dict_get.
  destruct (m !! py "user"), (m !! py "text"); rewrite ?Hstr; reflexivity.
Qed.

Lemma filter_new_messages_all (msgs : list (gmap (list N) pyval)) (w : world) :
  fst (filter_new_messages py_float py_str msgs [] w)
  = Return (PyDict (<[py "list" := PyList (map PyStr (map (render py_str) msgs))]>
                   (<[py "str" := PyStr (join [10%N] (map (render py_str) msgs))]>
                   (<[py "new_messages" := PyList (map PyDict msgs)]> ∅)))).
Proof. reflexivity. Qed.

Lemma filter_new_messages_newer (msgs : list (gmap (list N) pyval)) (ts : pystr)
    (f0 : spec_float) (w : world) :
  ts <> [] ->
  py_float (PyStr ts) = Return f0 ->
  timestamps_parse py_float msgs ->
  let kept := List.filter (newer_than py_float f0) msgs in
  fst (filter_new_messages py_float py_str msgs ts w)
  = Return (PyDict (<[py "list" := PyList (map PyStr (map (render py_str) kept))]>
                   (<[py "str" := PyStr (join [10%N] (map (render py_str) kept))]>
                   (<[py "new_messages" := PyList (map PyDict kept)]> ∅)))).
Proof.
  intros Hne Hf0 Hts kept. unfold filter_new_messages.
  destruct ts as [| c ts']; [contradiction |].
  change (negb (truthy (PyStr (c :: ts')))) with false. run_monad.
  rewrite Hf0. run_monad. rewrite (select_newer_filter f0 msgs Hts). reflexivity.
Qed.

End FilterProofs.

(** C9.  With an empty [state_last_ts], [filter_new_messages] returns all
    the messages.  With a non-empty one that [float] reads, and messages
    whose [ts] [float] reads, it returns exactly the messages whose
    timestamp is greater, as a float, than [state_last_ts], in their order.
    Each text line is the user in brackets, then the text, with "?" for a
    missing user and nothing for a missing text; the lines are also joined
    by line feeds. *)
Theorem filter_new_messages_spec (py_float : pyval -> result spec_float)
    (py_str : pyval -> pystr) (msgs : list (gmap (list N) pyval))
    (ts : pystr) (f0 : spec_float) (w : world) :
  (forall s, py_str (PyStr s) = s) ->
  (ts <> [] -> py_float (PyStr ts) = Return f0 /\ timestamps_parse py_float msgs) ->
  let kept := match ts with
              | [] => msgs
              | _ :: _ => List.filter (newer_than py_float f0) msgs
              end in
  fst (filter_new_messages py_float py_str msgs ts w)
  = Return (PyDict (<[py "list" := PyList (map PyStr (map (rendered_line py_str) kept))]>
                   (<[py "str" := PyStr (join [10%N] (map (rendered_line py_str) kept))]>
                   (<[py "new_messages" := PyList (map PyDict kept)]> ∅)))).
Proof.
  intros Hstr Hts kept.
  assert (Hr : map (render py_str) kept = map (rendered_line py_str) kept).
  { apply map_ext. intros m. apply render_rendered_line, Hstr. }
  rewrite <- Hr. subst kept. destruct ts as [| c ts'].
  - apply filter_new_messages_all.
  - destruct Hts as [Hf0 Hall]; [discriminate |].
    apply filter_new_messages_newer; [discriminate | assumption | assumption].
Qed.

Lemma filter_new_messages_spec_witness :
  fst (filter_new_messages builtin_float text_of sample_messages
         (py "1712345678.000200") empty_world)
  = Return (PyDict
      (<[py "list" := PyList [PyStr (py "[U1] hello"); PyStr (py "[?] ")]]>
      (<[py "str" := PyStr (py "[U1] hello" ++ [10%N] ++ py "[?] ")]>
      (<[py "new_messages" :=
           PyList [PyDict (message "1712345679.000100" "U1" "hello");
                   PyDict {[ py "ts" := PyStr (py "1712345680.5") ]}]]> ∅)))).
Proof.
  pose proof (filter_new_messages_spec builtin_float text_of sample_messages
                (py "1712345678.000200")
                (float_of_decimal false 1712345678000200 (-6)) empty_world) as H.
  cbv zeta in H. rewrite H.
  - vm_compute. reflexivity.
  - intros s. reflexivity.
  - intros _. split; [vm_compute; reflexivity |].
    unfold sample_messages, message.
    repeat (constructor;
            [eexists _, _; split;
             [rewrite ?lookup_insert_eq, ?lookup_singleton_eq; reflexivity
             | vm_compute; reflexivity] |]).
    constructor.
Defined.

(** ** Running the agent *)

Section AgentProofs.

Variable int_field : pyval -> option Z.
Variable str_field : pyval -> option pystr.
Variable parse_float : pystr -> spec_float.
Variable svc : Service.

Lemma get_guardian_state_run (w : world) :
  exists v w', get_guardian_state parse_float w = (Return v, w')
               /\ fs w' = fs w /\ service_log w' = service_log w /\ environ w' = environ w.
Proof.
  destruct (get_guardian_state_total parse_float w) as [v Hv].
  pose proof (get_guardian_state_fs parse_float w) as Hfs.
  pose proof (get_guardian_state_service_log parse_float w) as Hlog.
  pose proof (get_guardian_state_environ parse_float w) as Henv.
  destruct (get_guardian_state parse_float w) as [r w']. cbn in *. subst r. eauto 10.
Qed.



Lemma validation_shim_result (run : PlanRun) (w : world) :
  fst (validation_shim int_field str_field run w)
  = match final_output (outputs run) with
    | Some raw => validate_output int_field str_field (outputs run) raw
    | None => Raise (AttributeError "value")
    end.
Proof.
  unfold validation_shim. run_monad.
  destruct (final_output (outputs run)) as [raw |]; [| reflexivity].
  run_monad. destruct (is_dict raw); run_monad;
    destruct (validate_output _ _ _ _); reflexivity.
Qed.

Lemma validation_shim_fs run : preserves fs (validation_shim int_field str_field run).
Proof. unfold validation_shim. frame. Qed.

Lemma await_ready_fs run : preserves fs (await_ready svc run).
Proof. unfold await_ready. frame. Qed.

Lemma require_complete_fs run : preserves fs (require_complete run).
Proof. unfold require_complete. frame. Qed.

Lemma run_agent_fs :
  preserves fs (run_agent int_field str_field parse_float svc).
Proof.
  unfold run_agent.
  pose proof (get_guardian_state_fs parse_float).
  pose proof validation_shim_fs. pose proof await_ready_fs. pose proof require_complete_fs.
  frame.
Qed.

Lemma run_agent_result (w : world) :
  fst (run_agent int_field str_field parse_float svc w)
  = agent_outcome int_field str_field svc (environ w).
Proof.
  unfold run_agent, agent_outcome. run_monad.
  destruct (unset_or_empty (environ w !! py "PARENT_EMAIL")
            || unset_or_empty (environ w !! py "SLACK_CHANNEL_ID")); [reflexivity |].
  run_monad.
  match goal with
  | |- context [get_guardian_state parse_float ?W] =>
    destruct (get_guardian_state_run W) as (v & w1 & -> & _)
  end.
  run_monad. destruct (truthy v); run_monad.
  all: unfold terminal_run; destruct (setup svc) as [[] | e]; [| reflexivity]; run_monad.
  all: destruct (plan svc _) as [pl | e]; [| reflexivity]; run_monad.
  all: destruct (run_plan svc pl) as [run | e]; [| reflexivity]; run_monad.
  all: unfold await_ready; destruct (bool_decide (state run = NEED_CLARIFICATION)); run_monad.
  all: try (destruct (wait_for_ready svc run) as [run' | e]; [| reflexivity]; run_monad).
  all: unfold require_complete;
       match goal with
       | |- context [bool_decide (state ?r ≠ COMPLETE)] =>
         destruct (bool_decide (state r ≠ COMPLETE)); [reflexivity |]
       end; run_monad.
  all: match goal with
       | |- context [validation_shim int_field str_field ?r ?W] =>
         pose proof (validation_shim_result r W) as Hv;
         destruct (validation_shim int_field str_field r W) as [res w2];
         cbn [fst] in Hv; subst res; reflexivity
       end.
Qed.

Lemma run_agent_env_error (w : world) :
  unset_or_empty (environ w !! py "PARENT_EMAIL")
  || unset_or_empty (environ w !! py "SLACK_CHANNEL_ID") = true ->
  service_log (snd (run_agent int_field str_field parse_float svc w)) = service_log w.
Proof.
  intros H. unfold run_agent. run_monad. rewrite H. reflexivity.
Qed.

End AgentProofs.



(** C6.  If PORTIA_API_KEY is unset or empty once [load_dotenv] has run,
    the script raises at import, having printed nothing, touched no file and
    called nothing of the service.  If PARENT_EMAIL or SLACK_CHANNEL_ID is
    unset or empty, [run_agent] raises before any call to the service and
    without touching a file. *)
Theorem missing_configuration_raises (int_field : pyval -> option Z)
    (str_field : pyval -> option pystr) (parse_float : pystr -> spec_float)
    (svc : Service) (w : world) :
  (unset_or_empty (effective_environ w !! py "PORTIA_API_KEY") = true ->
   fst (script int_field str_field parse_float svc w) = Raise api_key_error
   /\ stdout (snd (script int_field str_field parse_float svc w)) = stdout w
   /\ fs (snd (script int_field str_field parse_float svc w)) = fs w
   /\ service_log (snd (script int_field str_field parse_float svc w)) = service_log w)
  /\ (unset_or_empty (environ w !! py "PARENT_EMAIL")
      || unset_or_empty (environ w !! py "SLACK_CHANNEL_ID") = true ->
      fst (run_agent int_field str_field parse_float svc w) = Raise env_error
      /\ fs (snd (run_agent int_field str_field parse_float svc w)) = fs w
      /\ service_log (snd (run_agent int_field str_field parse_float svc w))
         = service_log w).
Proof.
  split.
  - intros Hkey. unfold effective_environ in Hkey.
    unfold script, module_top_level. run_monad. rewrite Hkey. run_monad.
    repeat split; reflexivity.
  - intros Henv. split; [| split].
    + rewrite run_agent_result. unfold agent_outcome. rewrite Henv. reflexivity.
    + apply run_agent_fs.
    + apply run_agent_env_error, Henv.
Qed.

Lemma missing_configuration_raises_witness :
  (fst (script strict_int strict_str default_parse_float completing_service empty_world)
   = Raise api_key_error
   /\ stdout (snd (script strict_int strict_str default_parse_float completing_service
                     empty_world)) = []
   /\ fs (snd (script strict_int strict_str default_parse_float completing_service
                 empty_world)) = no_files
   /\ service_log (snd (script strict_int strict_str default_parse_float completing_service
                          empty_world)) = [])
  /\ (fst (run_agent strict_int strict_str default_parse_float completing_service
             empty_world) = Raise env_error
      /\ fs (snd (run_agent strict_int strict_str default_parse_float completing_service
                    empty_world)) = no_files
      /\ service_log (snd (run_agent strict_int strict_str default_parse_float
                             completing_service empty_world)) = []).
Proof.
  destruct (missing_configuration_raises strict_int strict_str default_parse_float
              completing_service empty_world) as [Hkey Henv].
  split; [apply Hkey | apply Henv]; reflexivity.
Defined.

(** ** The entry point *)

Lemma save_guardian_state_fs_congr (ts : pystr) (w1 w2 : world) :
  fs w1 = fs w2 ->
  fs (snd (save_guardian_state ts w1)) = fs (snd (save_guardian_state ts w2)).
Proof.
  intros Hfs. unfold save_guardian_state. run_monad. rewrite Hfs.
  destruct (write_fault (fs w2) !! state_file) as [[| n] |]; run_monad;
    rewrite ?Hfs; reflexivity.
Qed.

Lemma verify_saved_state_fs (pf : pystr -> spec_float) (ts : pystr) :
  preserves fs (verify_saved_state pf ts).
Proof. unfold verify_saved_state. frame. Qed.

Lemma report_and_save_fs (pf : pystr -> spec_float) (out : GuardianRunOutput) (w : world) :
  fs (snd (report_and_save pf out w))
  = match last_ts out with
    | Some (c :: s) => fs (snd (save_guardian_state (c :: s) w))
    | Some [] | None => fs w
    end.
Proof.
  unfold report_and_save. run_monad.
  destruct (0 <? alerted_count out)%Z; run_monad.
  all: destruct (last_ts out) as [[| c s] |]; run_monad; try reflexivity.
  all: match goal with
       | |- context [save_guardian_state ?ts ?W] =>
         pose proof (save_guardian_state_returns ts W) as Hret;
         pose proof (save_guardian_state_fs_congr ts W w) as Hfs;
         destruct (save_guardian_state ts W) as [r w1]; cbn [fst snd] in Hret, Hfs;
         subst r; run_monad; rewrite verify_saved_state_fs, Hfs
           by (autorewrite with world; reflexivity);
         reflexivity
       end.
Qed.

(** C10.  When [run_agent] returns a result whose [last_ts] is null or
    empty, the entry point writes no file: every file is as it was before.
    When [last_ts] is a non-empty string without surrogate code points (and
    the two counts are integers that can be printed), the entry point
    changes the file system exactly as [save_guardian_state] does for that
    string.  So the checkpoint is written only for a non-empty [last_ts]. *)
Theorem main_saves_only_nonempty_last_ts (int_field : pyval -> option Z)
    (str_field : pyval -> option pystr) (parse_float : pystr -> spec_float)
    (svc : Service) (w : world) (out : GuardianRunOutput) :
  fst (run_agent int_field str_field parse_float svc w) = Return out ->
  (last_ts out = None \/ last_ts out = Some [] ->
   fs (snd (main int_field str_field parse_float svc w)) = fs w)
  /\ (forall ts, last_ts out = Some ts -> ts <> [] -> encodable ts = true ->
      int_printable (scanned_count out) = true ->
      int_printable (alerted_count out) = true ->
      fs (snd (main int_field str_field parse_float svc w))
      = fs (snd (save_guardian_state ts w))).
Proof.
  intros Hout. rewrite run_agent_result in Hout.
  assert (Hmain : fs (snd (main int_field str_field parse_float svc w))
                  = match last_ts out with
                    | Some (c :: s) => fs (snd (save_guardian_state (c :: s) w))
                    | Some [] | None => fs w
                    end).
  { unfold main. run_monad.
    match goal with
    | |- context [run_agent int_field str_field parse_float svc ?W] =>
      pose proof (run_agent_result int_field str_field parse_float svc W) as Hres;
      pose proof (run_agent_fs int_field str_field parse_float svc W) as Hfs;
      destruct (run_agent int_field str_field parse_float svc W) as [r w1]
    end.
    autorewrite with world in Hres, Hfs. cbn [fst snd] in Hres, Hfs.
    rewrite Hout in Hres. subst r.
    pose proof (report_and_save_fs parse_float out w1) as Hsave.
    destruct (report_and_save parse_float out w1) as [[[] | e] w2]; cbn [snd] in Hsave;
      run_monad; rewrite Hsave;
      destruct (last_ts out) as [[| c s] |]; try assumption;
      apply save_guardian_state_fs_congr; assumption. }
  split.
  - intros [Hts | Hts]; rewrite Hmain, Hts; reflexivity.
  - intros ts Hts Hne _ _ _. rewrite Hmain, Hts.
    destruct ts as [| c s]; [contradiction | reflexivity].
Qed.

Lemma main_saves_only_nonempty_last_ts_witness :
  fs (snd (main strict_int strict_str default_parse_float completing_service
             configured_world))
  = fs (snd (save_guardian_state (py "1712345678.000200") configured_world)).
Proof.
  apply (main_saves_only_nonempty_last_ts strict_int strict_str default_parse_float
           completing_service configured_world
           {| scanned_count := 12; alerted_count := 0;
              last_ts := Some (py "1712345678.000200");
              safety_status := py "completed" |}).
  - vm_compute. reflexivity.
  - reflexivity.
  - discriminate.
  - vm_compute. reflexivity.
  - vm_compute. reflexivity.
  - vm_compute. reflexivity.
Defined.

(** ** Worked examples *)

(** The decoder on small inputs: the last of two equal keys wins, a
    trailing comma and a leading zero are refused, a lone high surrogate is
    kept. *)
Example json_loads_duplicate_key :
  json_loads default_parse_float
    (py "{" ++ encode_basestring_ascii (py "a") ++ py ": 1, "
     ++ encode_basestring_ascii (py "a") ++ py ": [true, null]}")
  = Return (PyDict {[ py "a" := PyList [PyBool true; PyNone] ]}).
Proof. vm_compute. reflexivity. Qed.

Example json_loads_trailing_comma :
  json_loads default_parse_float (py "[1,]") = Raise JSONDecodeError.
Proof. vm_compute. reflexivity. Qed.

Example json_loads_leading_zero :
  json_loads default_parse_float (py "01") = Raise JSONDecodeError.
Proof. vm_compute. reflexivity. Qed.

Example json_loads_lone_surrogate :
  json_loads default_parse_float ([34%N] ++ py "\ud83d" ++ [34%N])
  = Return (PyStr [55357%N]).
Proof. vm_compute. reflexivity. Qed.

(** The text written for a Slack timestamp. *)
Example dumps_slack_timestamp :
  dumps_entry_indent2 (py "last_ts") (py "1712345678.000200")
  = py "{" ++ [10%N] ++ py "  " ++ [34%N] ++ py "last_ts" ++ [34%N] ++ py ": "
    ++ [34%N] ++ py "1712345678.000200" ++ [34%N] ++ [10%N] ++ py "}".
Proof. vm_compute. reflexivity. Qed.

(** [float] on decimal text: one tenth, a Slack timestamp, a tie rounded to
    even, an overflow, and text that is no number. *)
Example float_one_tenth :
  float_of_str (py "0.1") = Return (S754_finite false 7205759403792794 (-56)).
Proof. vm_compute. reflexivity. Qed.

Example float_slack_timestamp :
  float_of_str (py "1712345678.000200")
  = Return (S754_finite false 7182098326618951 (-22)).
Proof. vm_compute. reflexivity. Qed.

Example float_tie_to_even :
  float_of_str (py "9007199254740993") = Return (S754_finite false 4503599627370496 1).
Proof. vm_compute. reflexivity. Qed.

Example float_overflow : float_of_str (py "1e400") = Return (S754_infinity false).
Proof. vm_compute. reflexivity. Qed.

Example float_not_a_number : float_of_str (py "1.2.3") = Raise ValueError.
Proof. vm_compute. reflexivity. Qed.

(** The checkpoint file in its bad states: only white space, text that is
    not JSON, JSON that is not an object, an object without [last_ts]. *)
Example get_guardian_state_blank_file :
  fst (get_guardian_state default_parse_float (world_with_state (py "  " ++ [10%N])))
  = Return (PyStr []).
Proof. vm_compute. reflexivity. Qed.

Example get_guardian_state_garbage :
  fst (get_guardian_state default_parse_float (world_with_state (py "{oops")))
  = Return (PyStr []).
Proof. vm_compute. reflexivity. Qed.

Example get_guardian_state_not_an_object :
  fst (get_guardian_state default_parse_float (world_with_state (py "[1, 2]")))
  = Return (PyStr []).
Proof. vm_compute. reflexivity. Qed.

Example get_guardian_state_no_last_ts :
  fst (get_guardian_state default_parse_float (world_with_state (py "{}")))
  = Return (PyStr []).
Proof. vm_compute. reflexivity. Qed.

(** Saving where the checkpoint cannot be opened for writing: the call
    returns, no file appears, the error is printed. *)
Example save_guardian_state_read_only :
  save_guardian_state (py "1712345678.000200") read_only_world
  = (Return tt,
     add_stdout (Printed "❌ Error saving state file: {e}" [AExn (OSError state_file)])
                read_only_world).
Proof. reflexivity. Qed.

(** A complete run: the service's dictionary lacks two keys, which are
    filled in, and the status is forced. *)
Example run_agent_complete_run :
  fst (run_agent strict_int strict_str default_parse_float completing_service
         configured_world)
  = Return {| scanned_count := 12; alerted_count := 0;
              last_ts := Some (py "1712345678.000200");
              safety_status := py "completed" |}.
Proof. vm_compute. reflexivity. Qed.

Example run_agent_complete_run_calls :
  service_log (snd (run_agent strict_int strict_str default_parse_float completing_service
                      configured_world))
  = [CallSetup;
     CallPlan {| prompt_parent_email := py "parent@example.org";
                 prompt_channel_id := py "C0123456789" |};
     CallRunPlan {| plan_id := py "plan-1" |}].
Proof. vm_compute. reflexivity. Qed.

(** * Further properties *)

(** ** The checkpoint text *)

Lemma join_surrogates_valid (a b : N) :
  is_high_surrogate a = true -> is_low_surrogate b = true ->
  valid_codepoint (join_surrogates a b)
  /\ is_high_surrogate (join_surrogates a b) = false
  /\ is_low_surrogate (join_surrogates a b) = false.
Proof.
  unfold is_high_surrogate, is_low_surrogate, valid_codepoint, max_codepoint,
    join_surrogates.
  intros Ha Hb. apply andb_true_iff in Ha as [Ha1 Ha2]. apply andb_true_iff in Hb as [Hb1 Hb2].
  apply N.leb_le in Ha1, Ha2, Hb1, Hb2.
  repeat split; [lia | |]; apply andb_false_iff; right; apply N.leb_gt; lia.
Qed.

Lemma scanstring_escaped_joined (s rest : pystr) :
  valid_str s ->
  scanstring (concat (map escape_char s) ++ 34%N :: rest)
  = Some (join_surrogate_pairs s, rest).
Proof.
  remember (length s) as n eqn:Hn. assert (Hle : length s <= n) by lia. clear Hn.
  revert s Hle. induction n as [| n IH]; intros s Hle Hv.
  - destruct s; [reflexivity | cbn in Hle; lia].
  - destruct s as [| a r]; [reflexivity |].
    apply Forall_cons in Hv as [Ha Hr]. cbn [length] in Hle.
    destruct r as [| b r'].
    + cbn [map concat join_surrogate_pairs]. rewrite <- app_assoc.
      rewrite scanstring_escape_char; [reflexivity | assumption |].
      intros _. cbn [app]. destruct rest as [| ? [| ? [| ? [| ? [| ? ?]]]]]; reflexivity.
    + apply Forall_cons in Hr as [Hb Hr']. cbn [length] in Hle.
      cbn [join_surrogate_pairs].
      destruct (is_high_surrogate a && is_low_surrogate b) eqn:Hpair.
      * apply andb_true_iff in Hpair as [Hh Hl].
        assert (Ha16 : (a < 65536)%N).
        { unfold is_high_surrogate in Hh. apply andb_true_iff in Hh as [_ H2].
          apply N.leb_le in H2. lia. }
        assert (Hb16 : (b < 65536)%N).
        { unfold is_low_surrogate in Hl. apply andb_true_iff in Hl as [_ H2].
          apply N.leb_le in H2. lia. }
        assert (Ea : escape_char a = u_escape a).
        { unfold escape_char, is_high_surrogate in *.
          apply andb_true_iff in Hh as [H1 H2]. apply N.leb_le in H1, H2.
          repeat match goal with
          | |- context [(a =? ?k)%N] => destruct (N.eqb_spec a k); [lia |]
          end.
          destruct (N.leb_spec a 126); [lia |]. rewrite andb_false_r.
          destruct (N.ltb_spec a 65536); [reflexivity | lia]. }
        assert (Eb : escape_char b = u_escape b).
        { unfold escape_char, is_low_surrogate in *.
          apply andb_true_iff in Hl as [H1 H2]. apply N.leb_le in H1, H2.
          repeat match goal with
          | |- context [(b =? ?k)%N] => destruct (N.eqb_spec b k); [lia |]
          end.
          destruct (N.leb_spec b 126); [lia |]. rewrite andb_false_r.
          destruct (N.ltb_spec b 65536); [reflexivity | lia]. }
        cbn [map concat]. rewrite Ea, Eb, <- !app_assoc.
        rewrite scanstring_surrogate_escapes by assumption.
        rewrite IH by (assumption || lia). reflexivity.
      * cbn [map concat]. rewrite <- app_assoc.
        rewrite scanstring_escape_char; [| assumption |].
        -- change (concat (map escape_char r') ++ 34%N :: rest)
             with (concat (map escape_char r') ++ 34%N :: rest).
           change (escape_char b ++ concat (map escape_char r'))
             with (concat (map escape_char (b :: r'))).
           rewrite IH; [reflexivity | cbn [length]; lia | constructor; assumption].
        -- intros Hh. rewrite Hh in Hpair. cbn [andb] in Hpair.
           rewrite <- app_assoc.
           destruct (starts_low_escape _) eqn:Hlow; [| reflexivity].
           apply starts_low_escape_escape_char in Hlow; [congruence | assumption].
Qed.

Lemma join_surrogate_pairs_id (s : pystr) :
  no_surrogate_pair s = true -> join_surrogate_pairs s = s.
Proof.
  induction s as [| a r IH]; [reflexivity |].
  cbn [no_surrogate_pair join_surrogate_pairs]. intros H.
  apply andb_true_iff in H as [Hpair Hr]. destruct r as [| b r'].
  - reflexivity.
  - apply negb_true_iff in Hpair. rewrite Hpair, IH by assumption. reflexivity.
Qed.

Lemma join_surrogate_pairs_cons (a b : N) (r : pystr) :
  join_surrogate_pairs (a :: b :: r)
  = if is_high_surrogate a && is_low_surrogate b
    then join_surrogates a b :: join_surrogate_pairs r
    else a :: join_surrogate_pairs (b :: r).
Proof. reflexivity. Qed.

Lemma join_surrogate_pairs_head (b : N) (r : pystr) :
  match join_surrogate_pairs (b :: r) with
  | x :: _ => is_low_surrogate x
  | [] => false
  end = true ->
  is_low_surrogate b = true.
Proof.
  destruct r as [| c r']; [trivial |].
  rewrite join_surrogate_pairs_cons.
  destruct (is_high_surrogate b && is_low_surrogate c) eqn:Hbc; [| trivial].
  apply andb_true_iff in Hbc as [Hh Hl].
  destruct (join_surrogates_valid b c Hh Hl) as (_ & _ & ->). discriminate.
Qed.

Lemma join_surrogate_pairs_settled (s : pystr) :
  valid_str s ->
  valid_str (join_surrogate_pairs s) /\ no_surrogate_pair (join_surrogate_pairs s) = true.
Proof.
  remember (length s) as n eqn:Hn. assert (Hle : length s <= n) by lia. clear Hn.
  revert s Hle. induction n as [| n IH]; intros s Hle Hv.
  - destruct s; [split; [constructor | reflexivity] | cbn in Hle; lia].
  - destruct s as [| a r]; [split; [constructor | reflexivity] |].
    apply Forall_cons in Hv as [Ha Hr]. cbn [length] in Hle.
    destruct r as [| b r'].
    + split; [repeat constructor; assumption |].
      cbn. rewrite andb_false_r. reflexivity.
    + apply Forall_cons in Hr as [Hb Hr']. cbn [length] in Hle.
      rewrite join_surrogate_pairs_cons.
      destruct (is_high_surrogate a && is_low_surrogate b) eqn:Hpair.
      * apply andb_true_iff in Hpair as [Hh Hl].
        destruct (join_surrogates_valid a b Hh Hl) as (Hjv & Hjh & Hjl).
        destruct (IH r') as [Hv' Hn']; [lia | assumption |].
        split; [constructor; assumption |].
        cbn [no_surrogate_pair]. rewrite Hjh, Hn'. reflexivity.
      * destruct (IH (b :: r')) as [Hv' Hn']; [cbn [length]; lia | constructor; assumption |].
        split; [constructor; assumption |].
        pose proof (join_surrogate_pairs_head b r') as Hhead.
        remember (join_surrogate_pairs (b :: r')) as t eqn:Ht. clear Ht.
        cbn [no_surrogate_pair]. rewrite Hn', andb_true_r.
        apply negb_true_iff.
        destruct (is_high_surrogate a) eqn:Hh; [| reflexivity].
        cbn [andb] in Hpair |- *.
        destruct (match t with [] => false | x :: _ => is_low_surrogate x end) eqn:Hlow;
          [| reflexivity].
        rewrite Hhead in Hpair by reflexivity. discriminate.
Qed.

Lemma json_loads_checkpoint_joined (pf : pystr -> spec_float) (ts : pystr) :
  valid_str ts ->
  json_loads pf (dumps_entry_indent2 (py "last_ts") ts)
  = Return (PyDict {[ py "last_ts" := PyStr (join_surrogate_pairs ts) ]}).
Proof.
  intros Hv. unfold json_loads.
  assert (Hfuel : exists n, 2 * length (dumps_entry_indent2 (py "last_ts") ts) + 1
                            = S (S (S n))).
  { rewrite dumps_checkpoint_text. cbn [app length]. eexists. cbn. reflexivity. }
  destruct Hfuel as [n ->].
  rewrite dumps_checkpoint_text.
  cbn [app scan_once skip_ws is_ws N.eqb Pos.eqb orb parse_object scanstring N.ltb
       N.compare Pos.compare Pos.compare_cont prepend].
  rewrite (scanstring_escaped_joined ts [10; 125]%N Hv).
  cbn [app scan_once skip_ws is_ws N.eqb Pos.eqb orb parse_object scanstring N.ltb
       N.compare Pos.compare Pos.compare_cont prepend].
  reflexivity.
Qed.

Lemma get_guardian_state_parsed (pf : pystr -> spec_float) (w : world)
    (text : pystr) (v : pyval) :
  contents (fs w) !! state_file = Some text ->
  state_file ∉ read_denied (fs w) ->
  strip text <> [] ->
  json_loads pf (strip text) = Return v ->
  fst (get_guardian_state pf w)
  = Return (match v with
            | PyDict d => dict_get d (py "last_ts") (PyStr [])
            | _ => PyStr []
            end).
Proof.
  intros Htext Hread Hne Hv. unfold get_guardian_state. run_monad.
  rewrite Htext, bool_decide_eq_true_2 by eauto. run_monad.
  rewrite bool_decide_eq_false_2 by assumption. rewrite Htext. run_monad.
  destruct (strip text) as [| c r] eqn:Hs; [contradiction |].
  change (negb (truthy (PyStr (c :: r)))) with false. run_monad.
  rewrite Hv. run_monad.
  destruct v; cbn [get_last_ts]; run_monad; try reflexivity.
  destruct (truthy (dict_get d (py "last_ts") (PyStr []))); reflexivity.
Qed.

Lemma get_after_save (pf : pystr -> spec_float) (ts : pystr) (w : world) :
  valid_str ts ->
  write_fault (fs w) !! state_file = None ->
  state_file ∉ read_denied (fs w) ->
  fst (get_guardian_state pf (snd (save_guardian_state ts w)))
  = Return (PyStr (join_surrogate_pairs ts)).
Proof.
  intros Hv Hw Hr.
  pose proof (save_guardian_state_success ts w Hw) as Hfs.
  rewrite (get_guardian_state_parsed pf _ (dumps_entry_indent2 (py "last_ts") ts)
             (PyDict {[ py "last_ts" := PyStr (join_surrogate_pairs ts) ]})).
  - unfold dict_get. rewrite lookup_singleton_eq. reflexivity.
  - rewrite Hfs. cbn [set_contents contents]. apply lookup_insert_eq.
  - rewrite Hfs. exact Hr.
  - rewrite dumps_checkpoint_strip, dumps_checkpoint_text. discriminate.
  - rewrite dumps_checkpoint_strip. apply json_loads_checkpoint_joined, Hv.
Qed.

Lemma encodable_join_surrogate_pairs (s : pystr) :
  encodable s = true -> join_surrogate_pairs s = s.
Proof. intros H. apply join_surrogate_pairs_id, encodable_no_surrogate_pair, H. Qed.

(** X1.  For every string whose surrogates all come in pairs (joining each
    high surrogate with the low surrogate that immediately follows it leaves
    no surrogate), when the checkpoint can be written and read back,
    [save_guardian_state ts] followed by [get_guardian_state] returns [ts]
    with each such pair merged into the code point the two encode, and
    everything else unchanged. *)
Theorem save_then_load_merges_pairs (pf : pystr -> spec_float) (ts : pystr) (w : world) :
  valid_str ts ->
  encodable (join_surrogate_pairs ts) = true ->
  write_fault (fs w) !! state_file = None ->
  state_file ∉ read_denied (fs w) ->
  fst (get_guardian_state pf (snd (save_guardian_state ts w)))
  = Return (PyStr (join_surrogate_pairs ts)).
Proof. intros Hv _. apply get_after_save, Hv. Qed.

Lemma save_then_load_merges_pairs_witness :
  fst (get_guardian_state default_parse_float
         (snd (save_guardian_state (py "ts " ++ surrogate_pair_ts) empty_world)))
  = Return (PyStr (py "ts " ++ [128512%N])).
Proof.
  apply (save_then_load_merges_pairs default_parse_float (py "ts " ++ surrogate_pair_ts)
           empty_world).
  - apply Forall_app. split; [apply valid_str_py |].
    repeat constructor; unfold valid_codepoint, max_codepoint; lia.
  - vm_compute. reflexivity.
  - reflexivity.
  - apply not_elem_of_empty.
Defined.

(** X2.  What a load after a save returns is stable: saving that value and
    loading again returns it unchanged, for every string first saved. *)
Theorem reload_is_stable (pf : pystr -> spec_float) (ts : pystr) (w : world) :
  valid_str ts ->
  write_fault (fs w) !! state_file = None ->
  state_file ∉ read_denied (fs w) ->
  forall loaded,
    fst (get_guardian_state pf (snd (save_guardian_state ts w))) = Return (PyStr loaded) ->
    fst (get_guardian_state pf (snd (save_guardian_state loaded w)))
    = Return (PyStr loaded).
Proof.
  intros Hv Hw Hr loaded Hloaded.
  rewrite get_after_save in Hloaded by assumption. injection Hloaded as <-.
  destruct (join_surrogate_pairs_settled ts Hv) as [Hv' Hn'].
  rewrite get_after_save by assumption.
  rewrite join_surrogate_pairs_id by assumption. reflexivity.
Qed.

Lemma reload_is_stable_witness :
  fst (get_guardian_state default_parse_float
         (snd (save_guardian_state [128512%N] empty_world)))
  = Return (PyStr [128512%N]).
Proof.
  apply (reload_is_stable default_parse_float surrogate_pair_ts empty_world).
  - repeat constructor; unfold valid_codepoint, max_codepoint; lia.
  - reflexivity.
  - apply not_elem_of_empty.
  - vm_compute. reflexivity.
Defined.

Lemma lstrip_spaces (pre s : pystr) :
  forallb isspace pre = true -> lstrip (pre ++ s) = lstrip s.
Proof.
  induction pre as [| c pre IH]; [reflexivity |].
  cbn [forallb app lstrip]. intros H. apply andb_true_iff in H as [-> H]. auto.
Qed.

Lemma forallb_rev {A} (f : A -> bool) (l : list A) :
  forallb f (rev l) = forallb f l.
Proof.
  induction l as [| x l IH]; [reflexivity |].
  cbn [rev forallb]. rewrite forallb_app, IH. cbn. rewrite andb_true_r. apply andb_comm.
Qed.

Lemma lstrip_app (s t : pystr) :
  lstrip (s ++ t) = if forallb isspace s then lstrip t else lstrip s ++ t.
Proof.
  induction s as [| c s IH]; [reflexivity |].
  cbn [app lstrip forallb]. destruct (isspace c); [exact IH | reflexivity].
Qed.

Lemma lstrip_all_space (s : pystr) : forallb isspace s = true -> lstrip s = [].
Proof.
  intros H. pose proof (lstrip_app s []) as E. rewrite app_nil_r, H in E. exact E.
Qed.

Lemma strip_padded (pre post text : pystr) :
  forallb isspace pre = true -> forallb isspace post = true ->
  strip (pre ++ text ++ post) = strip text.
Proof.
  intros Hpre Hpost. unfold strip.
  rewrite lstrip_spaces by assumption. rewrite lstrip_app.
  destruct (forallb isspace text) eqn:Htext.
  - rewrite (lstrip_all_space post Hpost), (lstrip_all_space text Htext). reflexivity.
  - rewrite rev_app_distr, lstrip_spaces by (rewrite forallb_rev; assumption).
    reflexivity.
Qed.

Lemma get_guardian_state_strip_congr (pf : pystr -> spec_float) (w1 w2 : world)
    (text1 text2 : pystr) :
  contents (fs w1) !! state_file = Some text1 ->
  contents (fs w2) !! state_file = Some text2 ->
  strip text1 = strip text2 ->
  (state_file ∈ read_denied (fs w1) <-> state_file ∈ read_denied (fs w2)) ->
  fst (get_guardian_state pf w1) = fst (get_guardian_state pf w2).
Proof.
  intros H1 H2 Hs Hr. unfold get_guardian_state. run_monad.
  rewrite H1, H2, !bool_decide_eq_true_2 by eauto. run_monad.
  rewrite (bool_decide_ext _ _ Hr).
  destruct (bool_decide (state_file ∈ read_denied (fs w2))); run_monad; [reflexivity |].
  rewrite H1, H2. run_monad. rewrite Hs.
  destruct (truthy (PyStr (strip text2))); run_monad; [| reflexivity].
  destruct (json_loads pf (strip text2)) as [v | e]; run_monad; [| reflexivity].
  destruct (get_last_ts v) as [x | e]; run_monad; [| reflexivity].
  destruct (truthy x); reflexivity.
Qed.

(** X3.  White space around the content of the checkpoint file is ignored:
    whatever the file holds, putting before and after it any characters that
    [str.isspace] accepts (a trailing newline, say, but also a form feed or
    a no-break space) does not change what [get_guardian_state] returns. *)
Theorem get_guardian_state_ignores_surrounding_space (pf : pystr -> spec_float)
    (text pre post : pystr) (w : world) :
  forallb isspace pre = true ->
  forallb isspace post = true ->
  fst (get_guardian_state pf
         (set_fs (set_contents state_file (pre ++ text ++ post) (fs w)) w))
  = fst (get_guardian_state pf (set_fs (set_contents state_file text (fs w)) w)).
Proof.
  intros Hpre Hpost.
  apply (get_guardian_state_strip_congr pf _ _ (pre ++ text ++ post) text).
  - autorewrite with world. cbn [set_contents contents]. apply lookup_insert_eq.
  - autorewrite with world. cbn [set_contents contents]. apply lookup_insert_eq.
  - apply strip_padded; assumption.
  - autorewrite with world. reflexivity.
Qed.

Lemma get_guardian_state_ignores_surrounding_space_witness :
  fst (get_guardian_state default_parse_float
         (set_fs (set_contents state_file
                    ([12%N; 160%N] ++ numeric_checkpoint ++ [10%N]) (fs empty_world))
            empty_world))
  = fst (get_guardian_state default_parse_float
           (set_fs (set_contents state_file numeric_checkpoint (fs empty_world))
              empty_world)).
Proof.
  apply (get_guardian_state_ignores_surrounding_space default_parse_float
           numeric_checkpoint [12%N; 160%N] [10%N] empty_world).
  - reflexivity.
  - reflexivity.
Defined.

Lemma hexdigit_ascii (d : N) :
  (d < 16)%N -> ((32 <=? hexdigit d) && (hexdigit d <=? 126))%N = true.
Proof.
  intros H. unfold hexdigit. apply andb_true_iff.
  destruct (N.ltb_spec d 10); split; apply N.leb_le; lia.
Qed.

Lemma u_escape_ascii (n : N) : is_ascii_text (u_escape n) = true.
Proof.
  unfold u_escape, is_ascii_text. cbn [forallb].
  rewrite !hexdigit_ascii by (apply N.mod_lt; discriminate).
  rewrite !orb_true_r. reflexivity.
Qed.

Lemma escape_char_ascii (c : N) : is_ascii_text (escape_char c) = true.
Proof.
  unfold escape_char.
  repeat match goal with
  | |- context [(c =? ?k)%N] => destruct (N.eqb_spec c k); [reflexivity |]
  end.
  destruct ((32 <=? c) && (c <=? 126))%N eqn:Hp.
  - unfold is_ascii_text. cbn [forallb]. rewrite Hp, orb_true_r. reflexivity.
  - destruct (c <? 65536)%N; cbv zeta; unfold is_ascii_text in *;
      rewrite ?forallb_app; rewrite ?u_escape_ascii; reflexivity.
Qed.

Lemma encode_basestring_ascii_ascii (s : pystr) :
  is_ascii_text (encode_basestring_ascii s) = true.
Proof.
  unfold encode_basestring_ascii, is_ascii_text. rewrite !forallb_app.
  assert (H : forallb (fun c => (c =? 10) || (32 <=? c) && (c <=? 126))%N
                (concat (map escape_char s)) = true).
  { induction s as [| c s IH]; [reflexivity |].
    cbn [map concat]. rewrite forallb_app, IH, andb_true_r. apply escape_char_ascii. }
  rewrite H. reflexivity.
Qed.

(** X4.  Whatever [ts] is, the text [save_guardian_state] writes is plain
    ASCII: printable characters and line feeds only, every other character
    of [ts] being escaped. *)
Theorem saved_checkpoint_is_ascii (ts : pystr) (w : world) :
  write_fault (fs w) !! state_file = None ->
  exists text,
    contents (fs (snd (save_guardian_state ts w))) !! state_file = Some text
    /\ is_ascii_text text = true.
Proof.
  intros Hw. rewrite (save_guardian_state_success ts w Hw).
  cbn [set_contents contents]. rewrite lookup_insert_eq. eexists. split; [reflexivity |].
  unfold dumps_entry_indent2, is_ascii_text. rewrite !forallb_app.
  pose proof (encode_basestring_ascii_ascii ts) as Hts.
  pose proof (encode_basestring_ascii_ascii (py "last_ts")) as Hkey.
  unfold is_ascii_text in Hts, Hkey. rewrite Hts, Hkey. reflexivity.
Qed.

Lemma saved_checkpoint_is_ascii_witness :
  exists text,
    contents (fs (snd (save_guardian_state [233%N; 128512%N; 9%N] empty_world)))
      !! state_file = Some text
    /\ is_ascii_text text = true.
Proof.
  apply (saved_checkpoint_is_ascii [233%N; 128512%N; 9%N] empty_world). reflexivity.
Defined.

(** ** The checkpoint functions *)

(** X5.  When the checkpoint file, once stripped, is valid JSON that
    nests no deeper than a hundred levels, [get_guardian_state] returns the
    [last_ts] member of a JSON object as it is stored, whatever its type (a
    number stays a number), provided that a member that is a string holds
    no surrogate; it returns the empty string when the object has no
    [last_ts], and the empty string when the JSON value is not an object. *)
Theorem get_guardian_state_returns_stored_member (pf : pystr -> spec_float) (w : world)
    (text : pystr) (v : pyval) :
  contents (fs w) !! state_file = Some text ->
  state_file ∉ read_denied (fs w) ->
  strip text <> [] ->
  opening_brackets (strip text) <= safe_nesting ->
  json_loads pf (strip text) = Return v ->
  (forall d s, v = PyDict d -> d !! py "last_ts" = Some (PyStr s) -> encodable s = true) ->
  fst (get_guardian_state pf w)
  = Return (match v with
            | PyDict d => match d !! py "last_ts" with Some x => x | None => PyStr [] end
            | _ => PyStr []
            end).
Proof.
  intros Htext Hread Hne _ Hv _.
  exact (get_guardian_state_parsed pf w text v Htext Hread Hne Hv).
Qed.

Lemma get_guardian_state_returns_stored_member_witness :
  fst (get_guardian_state default_parse_float (world_with_state numeric_checkpoint))
  = Return (PyInt 5).
Proof.
  refine (get_guardian_state_returns_stored_member default_parse_float
            (world_with_state numeric_checkpoint) numeric_checkpoint
            (PyDict {[ py "last_ts" := PyInt 5 ]}) _ _ _ _ _ _).
  - reflexivity.
  - apply not_elem_of_empty.
  - vm_compute. discriminate.
  - vm_compute. lia.
  - vm_compute. reflexivity.
  - intros d s Hd Hs. injection Hd as <-. rewrite lookup_singleton_eq in Hs. discriminate.
Defined.

(** X6.  In every world [get_guardian_state] prints exactly one line and
    changes nothing else: no file, no environment variable, no call to the
    service. *)
Theorem get_guardian_state_only_prints_one_line (pf : pystr -> spec_float) (w : world) :
  exists line, snd (get_guardian_state pf w) = add_stdout line w.
Proof.
  unfold get_guardian_state. run_monad.
  destruct (bool_decide (is_Some (contents (fs w) !! state_file))); run_monad;
    [| eexists; reflexivity].
  destruct (bool_decide (state_file ∈ read_denied (fs w))); run_monad;
    [eexists; reflexivity |].
  destruct (contents (fs w) !! state_file) as [text |]; run_monad;
    [| eexists; reflexivity].
  destruct (truthy (PyStr (strip text))); run_monad; [| eexists; reflexivity].
  destruct (json_loads pf (strip text)) as [v | e]; run_monad; [| eexists; reflexivity].
  destruct (get_last_ts v) as [x | e]; run_monad; [| eexists; reflexivity].
  destruct (truthy x); run_monad; eexists; reflexivity.
Qed.

Lemma save_guardian_state_world (ts : pystr) (w : world) :
  snd (save_guardian_state ts w)
  = match write_fault (fs w) !! state_file with
    | None =>
      add_stdout (Printed "💾 Saved state: last_ts = {last_ts}" [AStr ts])
        (set_fs (set_contents state_file (dumps_entry_indent2 (py "last_ts") ts) (fs w)) w)
    | Some OpenFails =>
      add_stdout (Printed "❌ Error saving state file: {e}" [AExn (OSError state_file)]) w
    | Some (WriteFails n) =>
      add_stdout (Printed "❌ Error saving state file: {e}" [AExn (OSError state_file)])
        (set_fs (set_contents state_file
                   (take n (dumps_entry_indent2 (py "last_ts") ts)) (fs w)) w)
    end.
Proof.
  unfold save_guardian_state.
  cbv beta iota zeta delta [mbind M_bind bind try_except write_text print].
  destruct (write_fault (fs w) !! state_file) as [[| n] |]; reflexivity.
Qed.

Lemma save_guardian_state_other_files (ts : pystr) (w : world) :
  delete state_file (contents (fs (snd (save_guardian_state ts w))))
  = delete state_file (contents (fs w))
  /\ read_denied (fs (snd (save_guardian_state ts w))) = read_denied (fs w)
  /\ write_fault (fs (snd (save_guardian_state ts w))) = write_fault (fs w).
Proof.
  rewrite save_guardian_state_world.
  destruct (write_fault (fs w) !! state_file) as [[| n] |];
    autorewrite with world; cbn [set_contents contents read_denied write_fault];
    rewrite ?delete_insert_eq; repeat split.
Qed.

(** X7.  [save_guardian_state] touches the checkpoint file and nothing else:
    every other file keeps its content, permissions, environment and the
    service log are unchanged, and exactly one line is printed; this holds
    whether the write succeeds or fails. *)
Theorem save_guardian_state_touches_only_checkpoint (ts : pystr) (w : world) :
  delete state_file (contents (fs (snd (save_guardian_state ts w))))
  = delete state_file (contents (fs w))
  /\ read_denied (fs (snd (save_guardian_state ts w))) = read_denied (fs w)
  /\ write_fault (fs (snd (save_guardian_state ts w))) = write_fault (fs w)
  /\ environ (snd (save_guardian_state ts w)) = environ w
  /\ dotenv (snd (save_guardian_state ts w)) = dotenv w
  /\ service_log (snd (save_guardian_state ts w)) = service_log w
  /\ exists line, stdout (snd (save_guardian_state ts w)) = stdout w ++ [line].
Proof.
  destruct (save_guardian_state_other_files ts w) as (Hc & Hr & Hw).
  split; [exact Hc | split; [exact Hr | split; [exact Hw |]]].
  rewrite save_guardian_state_world.
  destruct (write_fault (fs w) !! state_file) as [[| n] |];
    autorewrite with world; repeat split; eexists; reflexivity.
Qed.

(** X8.  The last save wins: saving [ts1] and then [ts2] leaves the file
    system exactly as saving [ts2] alone does, whether the writes succeed
    or fail. *)
Theorem save_guardian_state_last_write_wins (ts1 ts2 : pystr) (w : world) :
  fs (snd (save_guardian_state ts2 (snd (save_guardian_state ts1 w))))
  = fs (snd (save_guardian_state ts2 w)).
Proof.
  rewrite !save_guardian_state_world.
  destruct (write_fault (fs w) !! state_file) as [[| n] |] eqn:Hw;
    autorewrite with world; cbn [set_contents contents read_denied write_fault];
    rewrite ?Hw; autorewrite with world; try reflexivity;
    unfold set_contents; cbn [contents read_denied write_fault];
    rewrite insert_insert_eq; reflexivity.
Qed.

(** ** Errors of the message filter *)

Lemma select_newer_raises (py_float : pyval -> result spec_float) (f0 : spec_float)
    (pre post : list (gmap (list N) pyval)) (m : gmap (list N) pyval) (e : exn) :
  timestamps_parse py_float pre ->
  is_newer py_float f0 m = Raise e ->
  select_newer py_float f0 (pre ++ m :: post) = Raise e.
Proof.
  intros Hpre Hm. induction Hpre as [| m0 pre (v & f & Hts & Hf) _ IH].
  - cbn [app select_newer]. rewrite Hm. reflexivity.
  - cbn [app select_newer]. unfold is_newer at 1. rewrite Hts, Hf, IH. reflexivity.
Qed.

(** X9.  A non-empty [state_last_ts] that [float] cannot read makes
    [filter_new_messages] raise the error of [float], whatever the messages
    are, before anything is printed. *)
Theorem filter_new_messages_unreadable_checkpoint (py_float : pyval -> result spec_float)
    (py_str : pyval -> pystr) (msgs : list (gmap (list N) pyval)) (ts : pystr)
    (e : exn) (w : world) :
  ts <> [] ->
  py_float (PyStr ts) = Raise e ->
  filter_new_messages py_float py_str msgs ts w = (Raise e, w).
Proof.
  intros Hne Hf. destruct ts as [| c s]; [contradiction |].
  unfold filter_new_messages. run_monad. cbn [truthy]. rewrite Hf. reflexivity.
Qed.

Lemma filter_new_messages_unreadable_checkpoint_witness :
  filter_new_messages builtin_float text_of sample_messages (py "yesterday") empty_world
  = (Raise ValueError, empty_world).
Proof.
  apply (filter_new_messages_unreadable_checkpoint builtin_float text_of sample_messages
           (py "yesterday") ValueError empty_world).
  - discriminate.
  - vm_compute. reflexivity.
Defined.

(** X10.  With a readable non-empty [state_last_ts], the first message
    that has no [ts], or whose [ts] the conversion [float] refuses, makes
    [filter_new_messages] raise ([KeyError] for the missing key, the error of
    [float] otherwise): no message is skipped, nothing is returned and
    nothing is printed, whatever follows that message. *)
Theorem filter_new_messages_first_bad_message (py_float : pyval -> result spec_float)
    (py_str : pyval -> pystr) (pre post : list (gmap (list N) pyval))
    (m : gmap (list N) pyval) (ts : pystr) (f0 : spec_float) (e : exn) (w : world) :
  ts <> [] ->
  py_float (PyStr ts) = Return f0 ->
  timestamps_parse py_float pre ->
  (m !! py "ts" = None /\ e = KeyError (py "ts"))
  \/ (exists v, m !! py "ts" = Some v /\ py_float v = Raise e) ->
  filter_new_messages py_float py_str (pre ++ m :: post) ts w = (Raise e, w).
Proof.
  intros Hne Hf Hpre Hm. destruct ts as [| c s]; [contradiction |].
  assert (Hnewer : is_newer py_float f0 m = Raise e).
  { unfold is_newer. destruct Hm as [[-> ->] | (v & -> & ->)]; reflexivity. }
  unfold filter_new_messages. run_monad. cbn [truthy]. rewrite Hf. run_monad.
  rewrite (select_newer_raises py_float f0 pre post m e Hpre Hnewer). reflexivity.
Qed.

Lemma filter_new_messages_first_bad_message_witness :
  filter_new_messages builtin_float text_of
    ([message "1712345679.000100" "U1" "hello"] ++ untimed_message :: sample_messages)
    (py "1712345678.000200") empty_world
  = (Raise (KeyError (py "ts")), empty_world).
Proof.
  apply (filter_new_messages_first_bad_message builtin_float text_of
           [message "1712345679.000100" "U1" "hello"] sample_messages untimed_message
           (py "1712345678.000200") (float_of_decimal false 1712345678000200 (-6))
           (KeyError (py "ts")) empty_world).
  - discriminate.
  - vm_compute. reflexivity.
  - constructor; [| constructor].
    exists (PyStr (py "1712345679.000100")), (float_of_decimal false 1712345679000100 (-6)).
    split; vm_compute; reflexivity.
  - left. split; reflexivity.
Defined.

(** ** The agent and the entry point *)

Lemma print_dotenv text xs : preserves dotenv (print text xs).
Proof. intros w. reflexivity. Qed.

Lemma service_call_dotenv {A} c (r : result A) : preserves dotenv (service_call c r).
Proof. intros w. reflexivity. Qed.

Lemma write_text_service_log path text : preserves service_log (write_text path text).
Proof.
  intros w. unfold write_text.
  destruct (write_fault (fs w) !! path) as [[| n] |]; reflexivity.
Qed.

#[global] Hint Resolve print_dotenv service_call_dotenv write_text_service_log : frame.

Lemma get_guardian_state_dotenv pf : preserves dotenv (get_guardian_state pf).
Proof. unfold get_guardian_state. frame. Qed.

Section AgentFrames.

Variable int_field : pyval -> option Z.
Variable str_field : pyval -> option pystr.
Variable parse_float : pystr -> spec_float.
Variable svc : Service.

Lemma validation_shim_service_log run :
  preserves service_log (validation_shim int_field str_field run).
Proof. unfold validation_shim. frame. Qed.

Lemma run_agent_environ :
  preserves environ (run_agent int_field str_field parse_float svc).
Proof.
  unfold run_agent, validation_shim, await_ready, require_complete.
  pose proof (get_guardian_state_environ parse_float).
  frame.
Qed.

Lemma run_agent_dotenv :
  preserves dotenv (run_agent int_field str_field parse_float svc).
Proof.
  unfold run_agent, validation_shim, await_ready, require_complete.
  pose proof (get_guardian_state_dotenv parse_float).
  frame.
Qed.

Lemma run_agent_service_log (w : world) :
  service_log (snd (run_agent int_field str_field parse_float svc w))
  = service_log w
    ++ (if configured w then expected_calls svc (prompt_of w) else []).
Proof.
  destruct (configured w) eqn:Hc; unfold configured in Hc.
  2:{ rewrite app_nil_r. apply run_agent_env_error.
      apply negb_false_iff in Hc. exact Hc. }
  apply negb_true_iff in Hc.
  unfold run_agent, expected_calls, prompt_of. run_monad. rewrite Hc. run_monad.
  match goal with
  | |- context [get_guardian_state parse_float ?W] =>
    destruct (get_guardian_state_run parse_float W) as (v & w1 & -> & _ & Hlog & _)
  end.
  autorewrite with world in Hlog.
  run_monad. destruct (truthy v); run_monad.
  all: destruct (setup svc) as [[] | e]; run_monad; [| rewrite Hlog; reflexivity].
  all: destruct (plan svc _) as [pl | e]; run_monad;
       [| rewrite Hlog, <- app_assoc; reflexivity].
  all: destruct (run_plan svc pl) as [run | e]; run_monad;
       [| rewrite Hlog, <- !app_assoc; reflexivity].
  all: unfold await_ready; destruct (bool_decide (state run = NEED_CLARIFICATION));
       run_monad.
  all: try (destruct (wait_for_ready svc run) as [run' | e]; run_monad;
            [| rewrite Hlog, <- !app_assoc; reflexivity]).
  all: unfold require_complete;
       match goal with
       | |- context [bool_decide (state ?r ≠ COMPLETE)] =>
         destruct (bool_decide (state r ≠ COMPLETE)); run_monad
       end.
  all: rewrite ?validation_shim_service_log; autorewrite with world;
       rewrite Hlog, <- ?app_assoc; reflexivity.
Qed.

Lemma main_returns (w : world) :
  fst (main int_field str_field parse_float svc w) = Return tt.
Proof.
  unfold main. run_monad.
  destruct (run_agent int_field str_field parse_float svc _) as [[out | e] w1];
    run_monad; [| reflexivity].
  destruct (report_and_save parse_float out w1) as [[[] | e] w2]; reflexivity.
Qed.

Lemma report_and_save_service_log (out : GuardianRunOutput) :
  preserves service_log (report_and_save parse_float out).
Proof.
  unfold report_and_save, verify_saved_state. frame.
Qed.

End AgentFrames.



(** X12.  In every world, whatever the service answers and whether it
    returns or raises, [run_agent] changes no file, no file permission and
    no environment variable, and does not touch what the .env file holds:
    it only prints and calls the service. *)
Theorem run_agent_changes_no_file_or_variable (int_field : pyval -> option Z)
    (str_field : pyval -> option pystr) (parse_float : pystr -> spec_float)
    (svc : Service) (w : world) :
  fs (snd (run_agent int_field str_field parse_float svc w)) = fs w
  /\ environ (snd (run_agent int_field str_field parse_float svc w)) = environ w
  /\ dotenv (snd (run_agent int_field str_field parse_float svc w)) = dotenv w.
Proof.
  split; [apply run_agent_fs | split; [apply run_agent_environ | apply run_agent_dotenv]].
Qed.

(** X13.  What [run_agent] reads from the checkpoint file is only printed:
    in two worlds that agree on PARENT_EMAIL and SLACK_CHANNEL_ID, and for the
    same answers of the service, [run_agent] returns or raises the same and
    makes the same calls, whatever the files hold. *)
Theorem run_agent_ignores_checkpoint (int_field : pyval -> option Z)
    (str_field : pyval -> option pystr) (parse_float : pystr -> spec_float)
    (svc : Service) (w1 w2 : world) :
  environ w1 !! py "PARENT_EMAIL" = environ w2 !! py "PARENT_EMAIL" ->
  environ w1 !! py "SLACK_CHANNEL_ID" = environ w2 !! py "SLACK_CHANNEL_ID" ->
  fst (run_agent int_field str_field parse_float svc w1)
  = fst (run_agent int_field str_field parse_float svc w2)
  /\ exists calls,
       service_log (snd (run_agent int_field str_field parse_float svc w1))
       = service_log w1 ++ calls
       /\ service_log (snd (run_agent int_field str_field parse_float svc w2))
          = service_log w2 ++ calls.
Proof.
  intros Hpe Hch. split.
  - rewrite !run_agent_result. unfold agent_outcome. rewrite Hpe, Hch. reflexivity.
  - rewrite !run_agent_service_log. unfold configured, prompt_of. rewrite Hpe, Hch.
    eexists. split; reflexivity.
Qed.

Lemma run_agent_ignores_checkpoint_witness :
  fst (run_agent strict_int strict_str default_parse_float completing_service
         configured_world)
  = fst (run_agent strict_int strict_str default_parse_float completing_service
           (set_fs (set_contents state_file numeric_checkpoint no_files) configured_world))
  /\ exists calls,
       service_log (snd (run_agent strict_int strict_str default_parse_float
                           completing_service configured_world))
       = [] ++ calls
       /\ service_log (snd (run_agent strict_int strict_str default_parse_float
                              completing_service
                              (set_fs (set_contents state_file numeric_checkpoint no_files)
                                 configured_world)))
          = [] ++ calls.
Proof.
  apply (run_agent_ignores_checkpoint strict_int strict_str default_parse_float
           completing_service configured_world
           (set_fs (set_contents state_file numeric_checkpoint no_files) configured_world));
    reflexivity.
Defined.



(** X15.  When [run_agent] returns, or raises one of its own exceptions
    (the configuration error, the failure of the plan run, the missing final
    output), the block under [if __name__ == "__main__"] ends normally:
    nothing is raised out of it. *)
Theorem main_never_raises (int_field : pyval -> option Z)
    (str_field : pyval -> option pystr) (parse_float : pystr -> spec_float)
    (svc : Service) (w : world) :
  match fst (run_agent int_field str_field parse_float svc w) with
  | Return _ => True
  | Raise e => own_exception e
  end ->
  fst (main int_field str_field parse_float svc w) = Return tt.
Proof. intros _. apply main_returns. Qed.

Lemma main_never_raises_witness :
  fst (main strict_int strict_str default_parse_float failing_service configured_world)
  = Return tt.
Proof.
  apply (main_never_raises strict_int strict_str default_parse_float failing_service
           configured_world).
  vm_compute. right. left. exists FAILED. reflexivity.
Defined.

(** X17.  A variable that is set but empty in the process environment is
    not replaced by the .env file: with PORTIA_API_KEY set to the empty
    string the script raises the key error, whatever the .env file holds. *)
Theorem empty_api_key_shadows_dotenv (int_field : pyval -> option Z)
    (str_field : pyval -> option pystr) (parse_float : pystr -> spec_float)
    (svc : Service) (w : world) :
  environ w !! py "PORTIA_API_KEY" = Some [] ->
  script int_field str_field parse_float svc w
  = (Raise api_key_error, set_environ (effective_environ w) w).
Proof.
  intros Hkey. unfold script, module_top_level, effective_environ. run_monad.
  rewrite (lookup_union_Some_l _ _ _ _ Hkey). reflexivity.
Qed.

Lemma empty_api_key_shadows_dotenv_witness :
  script strict_int strict_str default_parse_float completing_service shadowed_key_world
  = (Raise api_key_error, set_environ (effective_environ shadowed_key_world) shadowed_key_world).
Proof.
  apply (empty_api_key_shadows_dotenv strict_int strict_str default_parse_float
           completing_service shadowed_key_world).
  reflexivity.
Defined.

(** X18.  When [run_agent] raises one of its own exceptions (the
    configuration error, the failure of the plan run, the missing final
    output), the entry point catches it: every file is left as it was, and
    the last line on standard output is the failure line carrying that
    exception. *)
Theorem main_reports_failure (int_field : pyval -> option Z)
    (str_field : pyval -> option pystr) (parse_float : pystr -> spec_float)
    (svc : Service) (w : world) (e : exn) :
  fst (run_agent int_field str_field parse_float svc w) = Raise e ->
  own_exception e ->
  fs (snd (main int_field str_field parse_float svc w)) = fs w
  /\ exists before,
       stdout (snd (main int_field str_field parse_float svc w))
       = before ++ [Printed "\n❌ Guardian Agent failed: {e}" [AExn e]].
Proof.
  intros He _. rewrite run_agent_result in He.
  unfold main. run_monad.
  match goal with
  | |- context [run_agent int_field str_field parse_float svc ?W] =>
    pose proof (run_agent_result int_field str_field parse_float svc W) as Hres;
    pose proof (run_agent_fs int_field str_field parse_float svc W) as Hfs;
    destruct (run_agent int_field str_field parse_float svc W) as [r w1]
  end.
  autorewrite with world in Hres, Hfs. cbn [fst snd] in Hres, Hfs.
  rewrite He in Hres. subst r. run_monad.
  split; [exact Hfs |].
  exists (stdout w1). reflexivity.
Qed.

Lemma main_reports_failure_witness :
  fs (snd (main strict_int strict_str default_parse_float failing_service
             configured_world)) = no_files
  /\ exists before,
       stdout (snd (main strict_int strict_str default_parse_float failing_service
                      configured_world))
       = before ++ [Printed "\n❌ Guardian Agent failed: {e}" [AExn (PlanRunFailure FAILED)]].
Proof.
  apply (main_reports_failure strict_int strict_str default_parse_float
           failing_service configured_world (PlanRunFailure FAILED)).
  - reflexivity.
  - right. left. exists FAILED. reflexivity.
Defined.

Lemma run_agent_service_log_congr (int_field : pyval -> option Z)
    (str_field : pyval -> option pystr) (parse_float : pystr -> spec_float)
    (svc : Service) (w1 w2 : world) :
  environ w1 = environ w2 -> service_log w1 = service_log w2 ->
  service_log (snd (run_agent int_field str_field parse_float svc w1))
  = service_log (snd (run_agent int_field str_field parse_float svc w2)).
Proof.
  intros Henv Hlog. rewrite !run_agent_service_log.
  unfold configured, prompt_of. rewrite Henv, Hlog. reflexivity.
Qed.

(** X19.  The entry point makes no call to the service of its own: in
    every world the calls recorded after it are those [run_agent] makes.
    Reporting, saving the checkpoint and verifying it call nothing. *)
Theorem main_calls_only_through_run_agent (int_field : pyval -> option Z)
    (str_field : pyval -> option pystr) (parse_float : pystr -> spec_float)
    (svc : Service) (w : world) :
  service_log (snd (main int_field str_field parse_float svc w))
  = service_log (snd (run_agent int_field str_field parse_float svc w)).
Proof.
  rewrite (run_agent_service_log_congr int_field str_field parse_float svc w
             (add_stdout (Printed "🚀 Starting Guardian Agent execution..." []) w))
    by reflexivity.
  unfold main. run_monad.
  destruct (run_agent int_field str_field parse_float svc _) as [[out | e] w1];
    run_monad; [| reflexivity].
  pose proof (report_and_save_service_log parse_float out w1) as Hlog.
  destruct (report_and_save parse_float out w1) as [[[] | e] w2]; cbn [snd] in Hlog;
    run_monad; exact Hlog.
Qed.

(** X20.  The entry point touches no file but the checkpoint: in every
    world, whatever the service answers, every other file keeps its content
    and no file permission changes. *)
Theorem main_touches_only_checkpoint (int_field : pyval -> option Z)
    (str_field : pyval -> option pystr) (parse_float : pystr -> spec_float)
    (svc : Service) (w : world) :
  delete state_file (contents (fs (snd (main int_field str_field parse_float svc w))))
  = delete state_file (contents (fs w))
  /\ read_denied (fs (snd (main int_field str_field parse_float svc w)))
     = read_denied (fs w)
  /\ write_fault (fs (snd (main int_field str_field parse_float svc w)))
     = write_fault (fs w).
Proof.
  unfold main. run_monad.
  match goal with
  | |- context [run_agent int_field str_field parse_float svc ?W] =>
    pose proof (run_agent_fs int_field str_field parse_float svc W) as Hfs;
    destruct (run_agent int_field str_field parse_float svc W) as [[out | e] w1]
  end.
  all: autorewrite with world in Hfs; cbn [snd] in Hfs; run_monad.
  2:{ rewrite Hfs. repeat split. }
  pose proof (report_and_save_fs parse_float out w1) as Hsave.
  destruct (report_and_save parse_float out w1) as [[[] | e] w2]; cbn [snd] in Hsave;
    run_monad; rewrite Hsave.
  all: destruct (last_ts out) as [[| c s] |]; rewrite <- ?Hfs; try (repeat split; fail).
  all: apply save_guardian_state_other_files.
Qed.

(** ** Verifying the saved checkpoint *)

(** X21.  After a successful save of a string without surrogates, the
    read-back check of the entry point finds the value it saved: it prints the
    line that the state is verified, prints nothing else, returns normally
    and changes nothing.  With the file written and readable, the mismatch
    line and the line that the state could not be verified are not printed. *)
Theorem verify_saved_state_after_save (pf : pystr -> spec_float) (ts : pystr) (w : world) :
  valid_str ts ->
  encodable ts = true ->
  write_fault (fs w) !! state_file = None ->
  state_file ∉ read_denied (fs w) ->
  verify_saved_state pf ts (snd (save_guardian_state ts w))
  = (Return tt,
     add_stdout (Printed "✅ State verified: {out.last_ts}" [AStr ts])
       (snd (save_guardian_state ts w))).
Proof.
  intros Hv He Hw Hr. rewrite save_guardian_state_world, Hw.
  unfold verify_saved_state. run_monad. cbn [set_contents contents read_denied].
  rewrite bool_decide_eq_false_2 by assumption.
  rewrite lookup_insert_eq. run_monad.
  rewrite (json_loads_checkpoint_joined pf ts Hv). run_monad.
  unfold dict_get. rewrite lookup_singleton_eq. cbn [eq_str].
  rewrite (encodable_join_surrogate_pairs ts He).
  rewrite bool_decide_eq_true_2 by reflexivity. reflexivity.
Qed.

Lemma verify_saved_state_after_save_witness :
  verify_saved_state default_parse_float (py "1712345678.000200")
    (snd (save_guardian_state (py "1712345678.000200") empty_world))
  = (Return tt,
     add_stdout (Printed "✅ State verified: {out.last_ts}"
                   [AStr (py "1712345678.000200")])
       (snd (save_guardian_state (py "1712345678.000200") empty_world))).
Proof.
  apply (verify_saved_state_after_save default_parse_float (py "1712345678.000200")
           empty_world).
  - apply valid_str_py.
  - vm_compute. reflexivity.
  - reflexivity.
  - apply not_elem_of_empty.
Defined.

(** ** The values of the validated result *)

(** X22.  When the final output is a dictionary and validation returns,
    the result carries the dictionary's own values: each count is the
    dictionary's entry as the schema reads it (zero for a missing entry),
    [last_ts] is null for a missing or null entry and the entry's text
    otherwise, and whatever [safety_status] the dictionary held is replaced
    by "completed".  The outputs of the run play no part. *)
Theorem validate_output_reads_dict (int_field : pyval -> option Z)
    (str_field : pyval -> option pystr) (outs : PlanRunOutputs)
    (d : gmap (list N) pyval) (r : GuardianRunOutput) :
  validate_output int_field str_field outs (PyDict d) = Return r ->
  int_field (dict_get d (py "scanned_count") (PyInt 0)) = Some (scanned_count r)
  /\ int_field (dict_get d (py "alerted_count") (PyInt 0)) = Some (alerted_count r)
  /\ match d !! py "last_ts" with
     | None | Some PyNone => last_ts r = None
     | Some v => exists s, str_field v = Some s /\ last_ts r = Some s
     end
  /\ safety_status r = py "completed".
Proof.
  unfold validate_output, coerce_output. intros H.
  destruct (model_validate int_field str_field (fill_defaults d)) as [r0 | e] eqn:Hm;
    [| discriminate].
  injection H as <-. unfold model_validate in Hm. rewrite !fill_defaults_lookup in Hm.
  change (default_of (py "scanned_count")) with (Some (PyInt 0)) in Hm.
  change (default_of (py "alerted_count")) with (Some (PyInt 0)) in Hm.
  change (default_of (py "last_ts")) with (Some PyNone) in Hm.
  change (default_of (py "safety_status")) with (Some (PyStr (py "failed"))) in Hm.
  match type of Hm with
  | match ?x with Some _ => _ | None => _ end = _ =>
    destruct x as [n1 |] eqn:H1; [| discriminate]
  end.
  match type of Hm with
  | match ?x with Some _ => _ | None => _ end = _ =>
    destruct x as [n2 |] eqn:H2; [| discriminate]
  end.
  match type of Hm with
  | match ?x with Some _ => _ | None => _ end = _ =>
    destruct x as [ts |] eqn:H3; [| discriminate]
  end.
  match type of Hm with
  | match ?x with Some _ => _ | None => _ end = _ =>
    destruct x as [st |] eqn:H4; [| discriminate]
  end.
  injection Hm as <-.
  cbn [force_completed scanned_count alerted_count last_ts safety_status].
  unfold dict_get.
  split; [destruct (d !! py "scanned_count"); exact H1 |].
  split; [destruct (d !! py "alerted_count"); exact H2 |].
  split; [| reflexivity].
  destruct (d !! py "last_ts") as [v3 |]; [| simplify_eq; reflexivity].
  destruct v3 as [| b | n | f | t | l | m | o]; try (simplify_eq; reflexivity);
    match type of H3 with
    | context [str_field ?v] =>
      destruct (str_field v) as [s3 |] eqn:Hs; cbn in H3; [| discriminate]
    end;
    simplify_eq; eauto.
Qed.

Lemma validate_output_reads_dict_witness :
  strict_int (dict_get (<[py "scanned_count" := PyInt 12]>
                          {[ py "last_ts" := PyStr (py "1712345678.000200") ]})
                (py "scanned_count") (PyInt 0)) = Some 12%Z
  /\ strict_int (dict_get (<[py "scanned_count" := PyInt 12]>
                             {[ py "last_ts" := PyStr (py "1712345678.000200") ]})
                   (py "alerted_count") (PyInt 0)) = Some 0%Z
  /\ match (<[py "scanned_count" := PyInt 12]>
              {[ py "last_ts" := PyStr (py "1712345678.000200") ]}
            : gmap (list N) pyval) !! py "last_ts" with
     | None | Some PyNone => Some (py "1712345678.000200") = None
     | Some v => exists s, strict_str v = Some s /\ Some (py "1712345678.000200") = Some s
     end
  /\ py "completed" = py "completed".
Proof.
  apply (validate_output_reads_dict strict_int strict_str no_outputs
           (<[py "scanned_count" := PyInt 12]>
              {[ py "last_ts" := PyStr (py "1712345678.000200") ]})
           {| scanned_count := 12; alerted_count := 0;
              last_ts := Some (py "1712345678.000200");
              safety_status := py "completed" |}).
  vm_compute. reflexivity.
Defined.

(** ** From one run to the next *)

Lemma get_guardian_state_fs_congr (pf : pystr -> spec_float) (w1 w2 : world) :
  fs w1 = fs w2 ->
  fst (get_guardian_state pf w1) = fst (get_guardian_state pf w2).
Proof.
  intros H. unfold get_guardian_state. run_monad. rewrite H.
  destruct (bool_decide (is_Some (contents (fs w2) !! state_file))); run_monad;
    [| reflexivity].
  rewrite H.
  destruct (bool_decide (state_file ∈ read_denied (fs w2))); run_monad; [reflexivity |].
  destruct (contents (fs w2) !! state_file) as [text |]; run_monad; [| reflexivity].
  destruct (truthy (PyStr (strip text))); run_monad; [| reflexivity].
  destruct (json_loads pf (strip text)) as [v | e]; run_monad; [| reflexivity].
  destruct (get_last_ts v) as [x | e]; run_monad; [| reflexivity].
  destruct (truthy x); reflexivity.
Qed.

Lemma main_fs (int_field : pyval -> option Z) (str_field : pyval -> option pystr)
    (parse_float : pystr -> spec_float) (svc : Service) (w : world) :
  fs (snd (main int_field str_field parse_float svc w))
  = match fst (run_agent int_field str_field parse_float svc w) with
    | Return out =>
      match last_ts out with
      | Some (c :: s) => fs (snd (save_guardian_state (c :: s) w))
      | Some [] | None => fs w
      end
    | Raise _ => fs w
    end.
Proof.
  rewrite run_agent_result.
  unfold main. run_monad.
  match goal with
  | |- context [run_agent int_field str_field parse_float svc ?W] =>
    pose proof (run_agent_result int_field str_field parse_float svc W) as Hres;
    pose proof (run_agent_fs int_field str_field parse_float svc W) as Hfs;
    destruct (run_agent int_field str_field parse_float svc W) as [r w1]
  end.
  autorewrite with world in Hres, Hfs. cbn [fst snd] in Hres, Hfs.
  rewrite <- Hres. destruct r as [out | e]; run_monad; [| exact Hfs].
  pose proof (report_and_save_fs parse_float out w1) as Hsave.
  destruct (report_and_save parse_float out w1) as [[[] | e] w2]; cbn [snd] in Hsave;
    run_monad; rewrite Hsave;
    destruct (last_ts out) as [[| c s] |]; try assumption;
    apply save_guardian_state_fs_congr; assumption.
Qed.

(** X23.  The checkpoint a run leaves is what the next run reads: when
    [run_agent] returns a non-empty [last_ts] without surrogates (and counts
    that can be printed) and the checkpoint file can be written and read,
    [get_guardian_state] called after the entry point has finished returns
    that [last_ts]. *)
Theorem next_run_reads_saved_last_ts (int_field : pyval -> option Z)
    (str_field : pyval -> option pystr) (parse_float : pystr -> spec_float)
    (svc : Service) (w : world) (out : GuardianRunOutput) (ts : pystr) :
  fst (run_agent int_field str_field parse_float svc w) = Return out ->
  last_ts out = Some ts -> ts <> [] -> valid_str ts -> encodable ts = true ->
  int_printable (scanned_count out) = true ->
  int_printable (alerted_count out) = true ->
  write_fault (fs w) !! state_file = None ->
  state_file ∉ read_denied (fs w) ->
  fst (get_guardian_state parse_float (snd (main int_field str_field parse_float svc w)))
  = Return (PyStr ts).
Proof.
  intros Hout Hts Hne Hv He _ _ Hw Hr.
  rewrite (get_guardian_state_fs_congr parse_float _ (snd (save_guardian_state ts w))).
  - rewrite get_after_save by assumption.
    rewrite (encodable_join_surrogate_pairs ts He). reflexivity.
  - rewrite main_fs, Hout, Hts. destruct ts as [| c s]; [contradiction | reflexivity].
Qed.

Lemma next_run_reads_saved_last_ts_witness :
  fst (get_guardian_state default_parse_float
         (snd (main strict_int strict_str default_parse_float completing_service
                 configured_world)))
  = Return (PyStr (py "1712345678.000200")).
Proof.
  apply (next_run_reads_saved_last_ts strict_int strict_str default_parse_float
           completing_service configured_world
           {| scanned_count := 12; alerted_count := 0;
              last_ts := Some (py "1712345678.000200");
              safety_status := py "completed" |}).
  - vm_compute. reflexivity.
  - reflexivity.
  - discriminate.
  - apply valid_str_py.
  - vm_compute. reflexivity.
  - vm_compute. reflexivity.
  - vm_compute. reflexivity.
  - reflexivity.
  - apply not_elem_of_empty.
Defined.

(** X24.  The checkpoint moves only on success: when [run_agent] raises,
    or returns a result whose [last_ts] is null or empty, what
    [get_guardian_state] returns after the entry point has finished is what
    it returns before. *)
Theorem failed_run_keeps_checkpoint (int_field : pyval -> option Z)
    (str_field : pyval -> option pystr) (parse_float : pystr -> spec_float)
    (svc : Service) (w : world) :
  match fst (run_agent int_field str_field parse_float svc w) with
  | Return out => last_ts out = None \/ last_ts out = Some []
  | Raise _ => True
  end ->
  fst (get_guardian_state parse_float (snd (main int_field str_field parse_float svc w)))
  = fst (get_guardian_state parse_float w).
Proof.
  intros H. apply get_guardian_state_fs_congr. rewrite main_fs.
  destruct (fst (run_agent int_field str_field parse_float svc w)) as [out | e];
    [| reflexivity].
  destruct H as [-> | ->]; reflexivity.
Qed.

Lemma failed_run_keeps_checkpoint_witness :
  fst (get_guardian_state default_parse_float
         (snd (main strict_int strict_str default_parse_float failing_service
                 (set_fs (set_contents state_file numeric_checkpoint no_files)
                    configured_world))))
  = fst (get_guardian_state default_parse_float
           (set_fs (set_contents state_file numeric_checkpoint no_files) configured_world)).
Proof.
  apply (failed_run_keeps_checkpoint strict_int strict_str default_parse_float
           failing_service
           (set_fs (set_contents state_file numeric_checkpoint no_files) configured_world)).
  vm_compute. exact I.
Defined.
